(** * Sleep metrics of polydodo: [backend/backend/metric.py]

    A shallow embedding of the class [Metrics] and of its [report], with the
    properties of the derived sleep metrics proved over it; then of the
    categorical features of [classification/features/extraction.py] and of
    the upload form of [web/analyze_sleep.py].

    Modelling choices.
    - The stage sequence is a one-dimensional NumPy array of stage names; it
      is a [list string] here.  [SleepStage.W.name] and [SleepStage.REM.name]
      are the member names ["W"] and ["REM"].
    - [classification/config/constants.py] is not part of the sources at
      hand.  Its two constants used by [metric.py], [EPOCH_DURATION] and the
      list [SleepStage.tolist()] of stage names, are parameters of the
      development.
    - Python integers are unbounded.  The [np.int64] scalars that come out
      of [np.where] are epoch indexes; their products with the epoch
      duration, a small configuration constant, are taken exact.  The
      bedtime is an argument, a Python integer of any size: an addition or a
      subtraction that it reaches follows NumPy 1.x ([pynum], [num_binop]):
      it wraps around in [np.int64], turns to [np.float64] or stays an exact
      Python integer, by the range of the Python operand.
    - A Python float is kept as the rational value of its double.
    - [None] is [None] of [option]; an exception raised by an indexing, by an
      arithmetic operation on [None] or by a division by zero is a value of
      [result].
    - Python dictionaries and [collections.Counter] are stdpp's [gmap].
    - The upload form and its parts are objects of the web framework, which
      is not part of the sources at hand: a step of the iteration and a read
      of an attribute of a part are outcomes, a value or an exception. *)

From Stdlib Require Import ZArith Lia Ascii String QArith Qcanon.
From stdpp Require Import gmap strings list fin_maps sorting numbers.

Local Open Scope Z_scope.

(** ** Exceptions *)

Inductive exn : Type :=
  | IndexError
  | TypeError
  | ZeroDivisionError
  | OverflowError.

Inductive result (A : Type) : Type :=
  | Ok (a : A)
  | Raise (e : exn).
Arguments Ok {A} a.
Arguments Raise {A} e.

#[global] Instance result_ret : MRet result := λ A a, Ok a.
#[global] Instance result_bind : MBind result := λ A B f r,
  match r with
  | Ok a => f a
  | Raise e => Raise e
  end.

(** Python values that are either an integer or [None]. *)
Definition pyint : Type := option Z.

(** [a + b] and [a - b] raise [TypeError] when an operand is [None]. *)
Definition py_add (a b : pyint) : result Z :=
  match a, b with
  | Some x, Some y => Ok (x + y)
  | _, _ => Raise TypeError
  end.

Definition py_sub (a b : pyint) : result Z :=
  match a, b with
  | Some x, Some y => Ok (x - y)
  | _, _ => Raise TypeError
  end.

(** ** Doubles *)

(** The integer nearest to [a / b], ties to the even one ([0 <= a],
    [0 < b]). *)
Definition round_half_even (a b : Z) : Z :=
  let q := a / b in
  let r := a mod b in
  if decide (2 * r < b) then q
  else if decide (b < 2 * r) then q + 1
  else if Z.even q then q else q + 1.

(** The double nearest to the ratio [a / b] of two positive integers, as a
    rational: [m * 2^(-s)] with a significand [m] of at most 53 bits, the
    result [m] of the rounding to nearest, ties to even.  The exponent [e]
    is that of the binade of [a / b]; below [2^(-1022)] the doubles are
    subnormal and keep the spacing [2^(-1074)]. *)
Definition double_of_ratio (a b : Z) : Qc :=
  let d := Z.log2 a - Z.log2 b in
  let e := if decide (b * 2 ^ Z.max 0 d ≤ a * 2 ^ Z.max 0 (- d))
           then d else d - 1 in
  let s := 52 - Z.max e (-1022) in
  let m := round_half_even (a * 2 ^ Z.max 0 s) (b * 2 ^ Z.max 0 (- s)) in
  Q2Qc (Qmake (m * 2 ^ Z.max 0 (- s)) (Z.to_pos (2 ^ Z.max 0 s))).

(** [a / b] on integers is the true division: the double nearest to the
    quotient.  It raises [OverflowError] when that double would not be
    finite, from the midpoint [2^1024 - 2^970] on.  (A zero result is [0.0]
    or [-0.0], both of value zero.) *)
Definition py_truediv (a b : Z) : result Qc :=
  if decide (b = 0) then Raise ZeroDivisionError
  else if decide (a = 0) then Ok 0%Qc
  else if decide (Z.abs b * (2 ^ 1024 - 2 ^ 970) ≤ Z.abs a)
       then Raise OverflowError
  else Ok (Q2Qc (inject_Z (Z.sgn a * Z.sgn b))
           * double_of_ratio (Z.abs a) (Z.abs b))%Qc.

(** The double nearest to an integer, ties to even; it is an integer. *)
Definition round53 (z : Z) : Z :=
  if decide (Z.abs z < 2 ^ 53) then z
  else
    let e := Z.log2 (Z.abs z) - 52 in
    Z.sgn z * (round_half_even (Z.abs z) (2 ^ e) * 2 ^ e).

(** ** Numbers that the bedtime reaches *)

(** A Python integer, an [np.int64] scalar, or an [np.float64] scalar; the
    doubles that arise here hold integers. *)
Inductive pynum : Type :=
  | PyInt (z : Z)
  | NpInt64 (z : Z)
  | NpFloat64 (z : Z).

Coercion PyInt : Z >-> pynum.

#[global] Instance pynum_eq_dec : EqDecision pynum.
Proof. solve_decision. Defined.

(** The wrap-around of [np.int64]. *)
Definition wrap64 (z : Z) : Z := (z + 2 ^ 63) mod 2 ^ 64 - 2 ^ 63.

Definition in_int64 (z : Z) : Prop := - 2 ^ 63 ≤ z < 2 ^ 63.

#[global] Instance in_int64_dec z : Decision (in_int64 z).
Proof. unfold in_int64. apply _. Defined.

(** An [np.int64] with a Python integer [p], the operands being [x] and [y]
    in this order.  When [p] fits [np.int64] the operation is that of
    [np.int64] and wraps around; when it only fits [np.uint64] both
    operands are cast to [np.float64]; beyond, NumPy works on Python
    objects and the result is the exact Python integer. *)
Definition int64_with_int (op : Z → Z → Z) (x y p : Z) : pynum :=
  if decide (in_int64 p) then NpInt64 (wrap64 (op x y))
  else if decide (2 ^ 63 ≤ p < 2 ^ 64)
       then NpFloat64 (round53 (op (round53 x) (round53 y)))
  else PyInt (op x y).

(** [a + b] and [a - b] on these numbers ([op] is [Z.add] or [Z.sub]). *)
Definition num_binop (op : Z → Z → Z) (a b : pynum) : pynum :=
  match a, b with
  | PyInt x, PyInt y => PyInt (op x y)
  | NpInt64 x, NpInt64 y => NpInt64 (wrap64 (op x y))
  | NpInt64 x, PyInt y => int64_with_int op x y y
  | PyInt x, NpInt64 y => int64_with_int op x y x
  | NpFloat64 x, NpFloat64 y => NpFloat64 (round53 (op x y))
  | NpFloat64 x, PyInt y => NpFloat64 (round53 (op x (round53 y)))
  | NpFloat64 x, NpInt64 y => NpFloat64 (round53 (op x (round53 y)))
  | PyInt x, NpFloat64 y => NpFloat64 (round53 (op (round53 x) y))
  | NpInt64 x, NpFloat64 y => NpFloat64 (round53 (op (round53 x) y))
  end.

(** The same on values that may be [None]: [TypeError]. *)
Definition num_add (a b : option pynum) : result pynum :=
  match a, b with
  | Some x, Some y => Ok (num_binop Z.add x y)
  | _, _ => Raise TypeError
  end.

Definition num_sub (a b : option pynum) : result pynum :=
  match a, b with
  | Some x, Some y => Ok (num_binop Z.sub x y)
  | _, _ => Raise TypeError
  end.

(** [x * EPOCH_DURATION]: the product with the constant, taken exact. *)
Definition num_scale (x : pynum) (c : Z) : pynum :=
  match x with
  | PyInt z => PyInt (z * c)
  | NpInt64 z => NpInt64 (z * c)
  | NpFloat64 z => NpFloat64 (z * c)
  end.

Arguments num_binop : simpl never.

(** [int(v)] when [v] is an [np.int64], as [report] does. *)
Definition int_of_int64 (v : pynum) : pynum :=
  match v with
  | NpInt64 z => PyInt z
  | _ => v
  end.

(** [sum(l)] *)
Definition py_sum (l : list Z) : Z := foldl Z.add 0 l.

(** [l[-1]] *)
Definition getitem_last {A} (l : list A) : result A :=
  match list.last l with
  | Some x => Ok x
  | None => Raise IndexError
  end.

(** [l[0]] *)
Definition getitem_first {A} (l : list A) : result A :=
  match l with
  | x :: _ => Ok x
  | [] => Raise IndexError
  end.

(** [str.upper] on ASCII letters (stage names are enumeration member
    names). *)
Definition upper_ascii (c : ascii) : ascii :=
  let n := nat_of_ascii c in
  if (Nat.leb 97 n && Nat.leb n 122)%bool then ascii_of_nat (n - 32) else c.

Fixpoint upper (s : string) : string :=
  match s with
  | EmptyString => EmptyString
  | String c r => String (upper_ascii c) (upper r)
  end.

(** ** NumPy *)

(** [np.where(mask)[0]]: the positions of the true entries, ascending. *)
Fixpoint np_where_from (i : nat) (mask : list bool) : list nat :=
  match mask with
  | [] => []
  | b :: m => (if b then [i] else []) ++ np_where_from (S i) m
  end.

Definition np_where (mask : list bool) : list nat := np_where_from 0 mask.

(** The order of [np.unique] on strings. *)
Definition str_le (a b : string) : Prop := String.leb a b = true.

#[global] Instance str_le_dec (a b : string) : Decision (str_le a b).
Proof. unfold str_le. apply _. Defined.

(** [np.unique(a)]: the sorted distinct elements. *)
Definition np_unique (a : list string) : list string :=
  merge_sort str_le (remove_dups a).

(** [a != s] and [a == s], elementwise. *)
Definition np_ne (a : list string) (s : string) : list bool :=
  (λ x, bool_decide (x ≠ s)) <$> a.

Definition np_eq (a : list string) (s : string) : list bool :=
  (λ x, bool_decide (x = s)) <$> a.

(** ** collections.Counter *)

(** [c[k]] on a [Counter]: zero for a missing key. *)
Definition counter_get `{Countable K} (c : gmap K Z) (k : K) : Z :=
  default 0 (c !! k).

Definition counter_incr `{Countable K} (c : gmap K Z) (k : K) : gmap K Z :=
  <[k := counter_get c k + 1]> c.

(** [Counter(l)] *)
Definition Counter `{Countable K} (l : list K) : gmap K Z :=
  foldl counter_incr ∅ l.

(** [list(d.values())] *)
Definition dict_values `{Countable K} {V} (d : gmap K V) : list V :=
  (map_to_list d).*2.

(** ** The class Metrics *)

Definition W_name : string := "W".
Definition REM_name : string := "REM".

Record Metrics : Type := mkMetrics {
  sleep_stages : list string;
  bedtime : Z;
  has_slept : bool;
  is_sleeping_stages : list bool;
  sleep_indexes : list nat;
  is_last_stage_sleep : bool;
  _sleep_offset : option pynum;
  _sleep_latency : pyint;
  _rem_latency : pyint;
  _stage_shifts : Z;
  _awakenings : Z
}.

Record Report : Type := mkReport {
  sleepOffset : option pynum;
  sleepLatency : pyint;
  remLatency : pyint;
  awakenings : Z;
  stageShifts : Z;
  sleepTime : pynum;
  WASO : pynum;
  sleepEfficiency : Qc;
  efficientSleepTime : Z;
  wakeAfterSleepOffset : Z;
  sleepOnset : option pynum;
  remOnset : option pynum;
  stageTimes : gmap string Z
}.

Section Engine.

(** The constants of [classification.config.constants]. *)
Variable EPOCH_DURATION : Z.
Variable SleepStage_tolist : list string.

(** [_get_latency_of_stage] *)
Definition _get_latency_of_stage (sequence_is_stage : list bool) : pyint :=
  let epochs_of_stage_of_interest := np_where sequence_is_stage in
  match epochs_of_stage_of_interest with
  | [] => None
  | i :: _ => Some (Z.of_nat i * EPOCH_DURATION)
  end.

(** The initialisers read attributes of [self] that [__init__] has already
    set; they are passed explicitly. *)

(** [_initialize_sleep_offset]: the number of epochs is an [np.int64] when
    it comes from the last sleep index, a Python integer when it is the
    length of the sequence. *)
Definition _initialize_sleep_offset (has_slept : bool) (sleep_indexes : list nat)
    (sleep_stages : list string) (bedtime : Z) : result (option pynum) :=
  if has_slept then
    sleep_nb_epochs ←
      (if decide (length sleep_indexes ≠ 0%nat)
       then i ← getitem_last sleep_indexes; mret (NpInt64 (Z.of_nat i + 1))
       else mret (PyInt (Z.of_nat (length sleep_stages))));
    mret (Some (num_binop Z.add (num_scale sleep_nb_epochs EPOCH_DURATION)
                          (PyInt bedtime)))
  else mret None.

(** [_initialize_sleep_latency] *)
Definition _initialize_sleep_latency (is_sleeping_stages : list bool) : pyint :=
  _get_latency_of_stage is_sleeping_stages.

(** [_initialize_rem_latency] *)
Definition _initialize_rem_latency (has_slept : bool) (sleep_stages : list string)
    (sleep_latency : pyint) : result pyint :=
  if has_slept then
    let bedtime_to_rem_duration :=
      _get_latency_of_stage (np_eq sleep_stages REM_name) in
    match bedtime_to_rem_duration with
    | Some _ => r ← py_sub bedtime_to_rem_duration sleep_latency; mret (Some r)
    | None => mret None
    end
  else mret None.

(** [_initialize_transition_based_metrics]: the pair
    [(nb_stage_shifts, nb_awakenings)]. *)
Definition _initialize_transition_based_metrics (sleep_stages : list string)
    (is_last_stage_sleep has_slept : bool) : Z * Z :=
  let consecutive_stages_occurences :=
    Counter (zip (removelast sleep_stages) (tail sleep_stages)) in
  let occurences_by_transition :=
    filter (λ kv : (string * string) * Z, kv.1.1 ≠ kv.1.2)
           consecutive_stages_occurences in
  let transition_occurences := dict_values occurences_by_transition in
  let awakenings_occurences :=
    dict_values
      (filter (λ kv : (string * string) * Z,
                 kv.1.1 ≠ W_name ∧ kv.1.2 = W_name)
              occurences_by_transition) in
  let nb_stage_shifts := py_sum transition_occurences in
  let nb_awakenings := py_sum awakenings_occurences in
  if (is_last_stage_sleep && has_slept)%bool
  then (nb_stage_shifts + 1, nb_awakenings + 1)
  else (nb_stage_shifts, nb_awakenings).

(** [len(np.unique(a)) != 1 or np.unique(a)[0] != SleepStage.W.name] *)
Definition compute_has_slept (sleep_stages : list string) : result bool :=
  if decide (length (np_unique sleep_stages) ≠ 1%nat) then mret true
  else u0 ← getitem_first (np_unique sleep_stages);
       mret (bool_decide (u0 ≠ W_name)).

(** [Metrics.__init__] *)
Definition Metrics_init (sleep_stages : list string) (bedtime : Z)
    : result Metrics :=
  has_slept ← compute_has_slept sleep_stages;
  let is_sleeping_stages := np_ne sleep_stages W_name in
  let sleep_indexes := np_where is_sleeping_stages in
  last_stage ← getitem_last sleep_stages;
  let is_last_stage_sleep := bool_decide (last_stage ≠ W_name) in
  sleep_offset ←
    _initialize_sleep_offset has_slept sleep_indexes sleep_stages bedtime;
  let sleep_latency := _initialize_sleep_latency is_sleeping_stages in
  rem_latency ← _initialize_rem_latency has_slept sleep_stages sleep_latency;
  let '(nb_stage_shifts, nb_awakenings) :=
    _initialize_transition_based_metrics sleep_stages is_last_stage_sleep
                                         has_slept in
  mret (mkMetrics sleep_stages bedtime has_slept is_sleeping_stages
                  sleep_indexes is_last_stage_sleep sleep_offset sleep_latency
                  rem_latency nb_stage_shifts nb_awakenings).

(** *** Properties of the class *)

(** The latencies are [np.int64] scalars. *)
Definition _sleep_onset (self : Metrics) : result (option pynum) :=
  if negb (has_slept self) then mret None
  else r ← num_add (NpInt64 <$> _sleep_latency self)
                   (Some (PyInt (bedtime self)));
       mret (Some r).

Definition _sleep_time (self : Metrics) : result pynum :=
  if negb (has_slept self) then mret (PyInt 0)
  else onset ← _sleep_onset self; num_sub (_sleep_offset self) onset.

Definition _efficient_sleep_time (self : Metrics) : Z :=
  Z.of_nat (length (sleep_indexes self)) * EPOCH_DURATION.

Definition _wake_after_sleep_onset (self : Metrics) : result pynum :=
  if negb (has_slept self) then mret (PyInt 0)
  else t ← _sleep_time self;
       mret (num_binop Z.sub t (PyInt (_efficient_sleep_time self))).

Definition _time_passed_in_stage (self : Metrics) : gmap string Z :=
  let nb_epoch_passed_by_stage := Counter (sleep_stages self) in
  let get_time_passed (stage : string) : Z :=
    match nb_epoch_passed_by_stage !! stage with
    | Some _ => EPOCH_DURATION * counter_get nb_epoch_passed_by_stage stage
    | None => 0
    end in
  foldl (λ d stage, <[(upper stage +:+ "Time")%string := get_time_passed stage]> d)
        ∅ SleepStage_tolist.

Definition _sleep_efficiency (self : Metrics) : result Qc :=
  py_truediv (Z.of_nat (length (sleep_indexes self)))
             (Z.of_nat (length (sleep_stages self))).

Definition _wake_after_sleep_offset (self : Metrics) : result Z :=
  if negb (has_slept self) then mret 0
  else
    wake_after_sleep_offset_nb_epochs ←
      (if negb (is_last_stage_sleep self)
       then i ← getitem_last (sleep_indexes self);
            mret (Z.of_nat (length (sleep_stages self)) - Z.of_nat i - 1)
       else mret 0);
    mret (wake_after_sleep_offset_nb_epochs * EPOCH_DURATION).

Definition _rem_onset (self : Metrics) : result (option pynum) :=
  let rem_latency := _rem_latency self in
  match rem_latency with
  | None => mret None
  | Some _ => r ← num_add (NpInt64 <$> rem_latency)
                          (Some (PyInt (bedtime self)));
              mret (Some r)
  end.

(** [Metrics.report]: the values in the order of the dictionary display,
    then every [np.int64] turned into a Python integer.
    The keys of [_time_passed_in_stage] end in ["Time"] after an upper-cased
    name, hence differ from the twelve fixed keys; they are kept as the map
    [stageTimes]. *)
Definition report (self : Metrics) : result Report :=
  sleep_time ← _sleep_time self;
  waso ← _wake_after_sleep_onset self;
  sleep_efficiency ← _sleep_efficiency self;
  wake_after_sleep_offset ← _wake_after_sleep_offset self;
  sleep_onset ← _sleep_onset self;
  rem_onset ← _rem_onset self;
  mret (mkReport (int_of_int64 <$> _sleep_offset self) (_sleep_latency self)
                 (_rem_latency self) (_awakenings self) (_stage_shifts self)
                 (int_of_int64 sleep_time) (int_of_int64 waso)
                 sleep_efficiency (_efficient_sleep_time self)
                 wake_after_sleep_offset (int_of_int64 <$> sleep_onset)
                 (int_of_int64 <$> rem_onset)
                 (_time_passed_in_stage self)).

(** Construction followed by the report. *)
Definition analyze (sleep_stages : list string) (bedtime : Z) : result Report :=
  self ← Metrics_init sleep_stages bedtime; report self.

End Engine.

(** * Exceptions of the feature extraction and of the web resource *)

Inductive py_exn : Type :=
  | StopIteration
  | ValueError
  | AttributeError
  | UnicodeDecodeError
  | MultipartParseError
  | ClassificationError (msg : string).

#[global] Instance py_exn_eq_dec : EqDecision py_exn.
Proof. solve_decision. Defined.

Inductive outcome (A : Type) : Type :=
  | Return (a : A)
  | Throw (e : py_exn).
Arguments Return {A} a.
Arguments Throw {A} e.

#[global] Instance outcome_ret : MRet outcome := λ A a, Return a.
#[global] Instance outcome_bind : MBind outcome := λ A B f r,
  match r with
  | Return a => f a
  | Throw e => Throw e
  end.

#[global] Instance outcome_eq_dec {A} `{EqDecision A} : EqDecision (outcome A).
Proof. solve_decision. Defined.

(** * Categorical features: [classification/features/extraction.py] *)

(** [l * n] on a list and an integer: [n] copies, none when [n <= 0]. *)
Definition py_list_repeat {A} (l : list A) (n : Z) : list A :=
  mjoin (replicate (Z.to_nat n) l).

(** [np.array(flat).reshape(n, -1)]: [n] rows in row-major order.  The
    number of columns is inferred; NumPy raises [ValueError] when [n] is
    zero or negative, or does not divide the size. *)
Definition np_reshape_rows (flat : list Z) (n : Z) : outcome (list (list Z)) :=
  if decide (n ≤ 0) then Throw ValueError
  else
    let size := Z.of_nat (length flat) in
    if decide (size mod n ≠ 0) then Throw ValueError
    else
      let nb_columns := Z.to_nat (size / n) in
      Return ((λ row, take nb_columns (drop (row * nb_columns) flat))
                <$> seq 0 (Z.to_nat n)).

Section extraction.

(** The constant [AGE_FEATURE_BINS] of [classification.config.constants]:
    the inclusive age ranges. *)
Variable AGE_FEATURE_BINS : list (Z * Z).

(** [get_non_eeg_features]; [sex_value] is [sex.value] and [nb_epochs] a
    Python integer. *)
Definition get_non_eeg_features (age sex_value nb_epochs : Z)
    : outcome (list (list Z)) :=
  age_category ←
    match list_find (λ age_range : Z * Z,
                       age_range.1 ≤ age ∧ age ≤ age_range.2)
                    AGE_FEATURE_BINS with
    | Some (category_index, _) => Return (Z.of_nat category_index)
    | None => Throw StopIteration
    end;
  let X_categorical := [sex_value; age_category] in
  np_reshape_rows (py_list_repeat X_categorical nb_epochs) nb_epochs.

End extraction.

(** * The upload form: [web/analyze_sleep.py] *)

(** [str.lower] on ASCII letters. *)
Definition lower_ascii (c : ascii) : ascii :=
  let n := nat_of_ascii c in
  if (Nat.leb 65 n && Nat.leb n 90)%bool then ascii_of_nat (n + 32) else c.

Fixpoint lower (s : string) : string :=
  match s with
  | EmptyString => EmptyString
  | String c r => String (lower_ascii c) (lower r)
  end.

(** [s.endswith(suffixes)] with a tuple of suffixes. *)
Definition str_endswith (s : string) (suffixes : list string) : bool :=
  bool_decide
    (Exists (λ suffix, list_ascii_of_string suffix
                       `suffix_of` list_ascii_of_string s) suffixes).

(** A part of the multipart form, as [_parse_form] reads it.  The parts
    are objects of the web framework: reading [part.name], [part.filename],
    [part.stream.read()] or [part.text] returns a value or raises (the
    framework raises [MultipartParseError] on a header or a text that it
    cannot decode, on a part that is too large, on a truncated body).  A
    name, a file name and a text may be [None].  Reading [part.name] again
    gives what the first reading gave. *)
Record BodyPart : Type := mkBodyPart {
  part_name : outcome (option string);
  part_filename : outcome (option string);
  part_stream : outcome string;
  part_text : outcome (option string)
}.

Module AnalyzeSleep.
Section AnalyzeSleep.

(** The constant [ALLOWED_FILE_EXTENSIONS] of
    [classification.config.constants]. *)
Variable ALLOWED_FILE_EXTENSIONS : list string.

(** [bytes.decode('utf-8')]: the text, or [None] when the bytes are not
    valid UTF-8 and [UnicodeDecodeError] is raised. *)
Variable decode_utf8 : string → option string.

Definition _validate_file (file_content : option string) : outcome unit :=
  match file_content with
  | None => Throw (ClassificationError "Missing file")
  | Some _ => Return ()
  end.

Definition _validate_filename (filename : option string) : outcome unit :=
  match filename with
  | None => Throw AttributeError
  | Some name =>
      if negb (str_endswith (lower name) ALLOWED_FILE_EXTENSIONS)
      then Throw (ClassificationError "File format not allowed")
      else Return ()
  end.

(** [part.stream.read().decode('utf-8')]. *)
Definition read_decoded (part : BodyPart) : outcome string :=
  bytes ← part_stream part;
  match decode_utf8 bytes with
  | Some text => Return text
  | None => Throw UnicodeDecodeError
  end.

(** The loop of [_parse_form], from the current values of [form_data] and
    [file_content].  The form is what the iteration gives, step by step: a
    part, or the exception that the iterator raises.  In the assignment
    [form_data[part.name] = part.text] the text is read first. *)
Fixpoint parse_parts (form : list (outcome BodyPart))
    (form_data : gmap (option string) (option string))
    (file_content : option string)
    : outcome (gmap (option string) (option string) * option string) :=
  match form with
  | [] => Return (form_data, file_content)
  | next :: form' =>
      part ← next;
      name ← part_name part;
      if decide (name = Some "file"%string) then
        filename ← part_filename part;
        _ ← _validate_filename filename;
        content ← read_decoded part;
        parse_parts form' form_data (Some content)
      else
        text ← part_text part;
        name ← part_name part;
        parse_parts form' (<[name := text]> form_data) file_content
  end.

Definition _parse_form (form : list (outcome BodyPart))
    : outcome (gmap (option string) (option string) * option string) :=
  '(form_data, file_content) ← parse_parts form ∅ None;
  _ ← _validate_file file_content;
  Return (form_data, file_content).

(** What the loop reads of one step of the iteration. *)
Definition item_name (item : outcome BodyPart) : outcome (option string) :=
  part ← item; part_name part.

Definition item_text (item : outcome BodyPart) : outcome (option string) :=
  part ← item; part_text part.

Definition item_content (item : outcome BodyPart) : outcome string :=
  part ← item; read_decoded part.

(** A step that the loop gets past: a part that is not the file and whose
    text is read, or a file with a name that is read and accepted and bytes
    that are read and decoded. *)
Definition field_passes (item : outcome BodyPart) : Prop :=
  ∃ part name text,
    item = Return part ∧ part_name part = Return name ∧
    name ≠ Some "file"%string ∧ part_text part = Return text.

Definition file_passes (item : outcome BodyPart) : Prop :=
  ∃ part filename content,
    item = Return part ∧ part_name part = Return (Some "file"%string) ∧
    part_filename part = Return filename ∧
    _validate_filename filename = Return () ∧
    read_decoded part = Return content.

Definition item_passes (item : outcome BodyPart) : Prop :=
  field_passes item ∨ file_passes item.

(** A step at which the loop stops with the exception [e]: the iteration
    raises, or the name of the part, or for a file the file name, its
    check, the stream or the decoding, or for another part the text. *)
Definition part_fails (part : BodyPart) (e : py_exn) : Prop :=
  part_name part = Throw e ∨
  (part_name part = Return (Some "file"%string) ∧
   (part_filename part = Throw e ∨
    ∃ filename,
      part_filename part = Return filename ∧
      (_validate_filename filename = Throw e ∨
       (_validate_filename filename = Return () ∧
        read_decoded part = Throw e)))) ∨
  (∃ name,
     part_name part = Return name ∧ name ≠ Some "file"%string ∧
     part_text part = Throw e).

Definition item_fails (item : outcome BodyPart) (e : py_exn) : Prop :=
  item = Throw e ∨ ∃ part, item = Return part ∧ part_fails part e.

End AnalyzeSleep.
End AnalyzeSleep.

(** * Vocabulary of the specification *)

(** [i] is the first (resp. last) epoch index whose label satisfies [P]. *)
Definition first_index (P : string → Prop) (ss : list string) (i : nat) : Prop :=
  (∃ x, ss !! i = Some x ∧ P x) ∧
  ∀ j x, (j < i)%nat → ss !! j = Some x → ¬ P x.

Definition last_index (P : string → Prop) (ss : list string) (i : nat) : Prop :=
  (∃ x, ss !! i = Some x ∧ P x) ∧
  ∀ j x, (i < j)%nat → ss !! j = Some x → ¬ P x.

Definition is_sleep (x : string) : Prop := x ≠ W_name.
Definition is_rem (x : string) : Prop := x = REM_name.

#[global] Instance is_sleep_dec x : Decision (is_sleep x).
Proof. unfold is_sleep. apply _. Defined.
#[global] Instance is_rem_dec x : Decision (is_rem x).
Proof. unfold is_rem. apply _. Defined.

(** At least one epoch is not labeled wake. *)
Definition some_sleep (ss : list string) : Prop := Exists is_sleep ss.

#[global] Instance some_sleep_dec ss : Decision (some_sleep ss).
Proof. unfold some_sleep. apply _. Defined.

(** The adjacent pair [(s[i], s[i+1])] exists and satisfies [P]. *)
Definition pair_at (P : string → string → Prop) (ss : list string) (i : nat)
    : Prop :=
  match ss !! i, ss !! S i with
  | Some a, Some b => P a b
  | _, _ => False
  end.

#[global] Instance pair_at_dec (P : string → string → Prop)
    `{!∀ a b, Decision (P a b)} ss i : Decision (pair_at P ss i).
Proof. unfold pair_at. destruct (ss !! i), (ss !! S i); apply _. Defined.

(** The number of indexes [i] in [0..n-2] whose pair satisfies [P]. *)
Definition count_pairs (P : string → string → Prop)
    `{!∀ a b, Decision (P a b)} (ss : list string) : Z :=
  Z.of_nat (length (filter (pair_at P ss) (seq 0 (length ss - 1)))).

Definition is_shift (a b : string) : Prop := a ≠ b.
Definition is_awakening (a b : string) : Prop := a ≠ W_name ∧ b = W_name.

(** The last epoch is a sleep stage. *)
Definition last_is_sleep (ss : list string) : Prop :=
  ∃ x, list.last ss = Some x ∧ x ≠ W_name.

(** The mask of a predicate over the labels: [np_ne] and [np_eq] are masks. *)
Definition mask_of (P : string → Prop) `{!∀ x, Decision (P x)}
    (ss : list string) : list bool :=
  (λ x, bool_decide (P x)) <$> ss.

(** The REM latency of a sequence whose first sleep index is [j]: the
    elapsed time of the first REM epoch, less that of the first sleep
    epoch. *)
Definition rem_latency_from (EPOCH_DURATION : Z) (ss : list string) (j : nat)
    : pyint :=
  match np_where (np_eq ss REM_name) with
  | [] => None
  | i :: _ => Some (Z.of_nat i * EPOCH_DURATION - Z.of_nat j * EPOCH_DURATION)
  end.

(** An [np.int64] value [x] plus the bedtime [b]. *)
Definition plus_bedtime (b x : Z) : pynum :=
  num_binop Z.add (NpInt64 x) (PyInt b).

(** The quotient of two lengths [k <= n], [0 < n], as a double. *)
Definition efficiency_of (k n : Z) : Qc :=
  if decide (k = 0) then 0%Qc else double_of_ratio k n.

(** The bedtime and the end of the recording counted from it fit
    [np.int64], for a non-negative epoch duration. *)
Definition fits_int64 (E : Z) (n : nat) (b : Z) : Prop :=
  0 ≤ E ∧ - 2 ^ 63 ≤ b ∧ Z.of_nat n * E + b < 2 ^ 63 ∧ Z.of_nat n * E < 2 ^ 63.

#[global] Instance fits_int64_dec E n b : Decision (fits_int64 E n b).
Proof. unfold fits_int64. apply _. Defined.

(** A concrete configuration, for the examples: the five stage names of the
    sleep scoring manual and epochs of thirty seconds. *)
Definition demo_stages : list string := ["W"; "N1"; "N2"; "N3"; "REM"]%string.
Definition demo_night : list string :=
  ["W"; "W"; "N2"; "N2"; "REM"; "N2"; "W"]%string.

(** * Lemmas on the Python and NumPy primitives *)

Section py_sum.

Lemma py_sum_acc (l : list Z) (a : Z) : foldl Z.add a l = a + py_sum l.
Proof.
  unfold py_sum. revert a.
  induction l as [|x l IH]; intros a; simpl; [lia|].
  rewrite (IH (a + x)), (IH (0 + x)). lia.
Qed.

Lemma py_sum_cons (x : Z) (l : list Z) : py_sum (x :: l) = x + py_sum l.
Proof. unfold py_sum at 1. simpl. apply py_sum_acc. Qed.

Lemma py_sum_perm (l1 l2 : list Z) : l1 ≡ₚ l2 → py_sum l1 = py_sum l2.
Proof.
  induction 1 as [|x l1 l2 _ IH|x y l|l1 l2 l3 _ IH1 _ IH2].
  - done.
  - by rewrite !py_sum_cons, IH.
  - rewrite !py_sum_cons. lia.
  - by rewrite IH1.
Qed.

End py_sum.

Section counter.
Context `{Countable K}.
Implicit Types (c : gmap K Z) (k : K) (l : list K).

Lemma sum_values_empty : py_sum (dict_values (∅ : gmap K Z)) = 0.
Proof. unfold dict_values. by rewrite map_to_list_empty. Qed.

Lemma sum_values_insert_fresh c k (v : Z) :
  c !! k = None →
  py_sum (dict_values (<[k:=v]> c)) = v + py_sum (dict_values c).
Proof.
  intros Hk. unfold dict_values.
  rewrite (py_sum_perm _ (((k, v) :: map_to_list c).*2)).
  - by rewrite fmap_cons, py_sum_cons.
  - by rewrite map_to_list_insert.
Qed.

Lemma sum_values_insert_present c k (v w : Z) :
  c !! k = Some w →
  py_sum (dict_values (<[k:=v]> c)) = v - w + py_sum (dict_values c).
Proof.
  intros Hk.
  rewrite <-(insert_delete_eq c k v).
  rewrite <-(insert_delete_id c k w) at 2 by done.
  rewrite !sum_values_insert_fresh by apply lookup_delete_eq. lia.
Qed.

(** One more occurrence of [k] adds one to the total of the counts kept by
    a filter on the keys, when the filter keeps [k]. *)
Lemma sum_filter_counter_incr (P : K → Prop) `{!∀ k, Decision (P k)} c k :
  py_sum (dict_values (filter (λ kv : K * Z, P kv.1) (counter_incr c k)))
  = py_sum (dict_values (filter (λ kv : K * Z, P kv.1) c))
    + (if decide (P k) then 1 else 0).
Proof.
  unfold counter_incr, counter_get. rewrite map_filter_insert. simpl.
  destruct (decide (P k)) as [HP|HP].
  - destruct (c !! k) as [w|] eqn:Hk; simpl.
    + rewrite (sum_values_insert_present _ _ _ w); [lia|].
      by apply map_lookup_filter_Some.
    + rewrite sum_values_insert_fresh; [lia|].
      apply map_lookup_filter_None. by left.
  - rewrite map_filter_delete_not; [lia|]. by intros y _.
Qed.

Lemma sum_filter_foldl_counter_incr (P : K → Prop) `{!∀ k, Decision (P k)} l c :
  py_sum (dict_values (filter (λ kv : K * Z, P kv.1) (foldl counter_incr c l)))
  = py_sum (dict_values (filter (λ kv : K * Z, P kv.1) c))
    + Z.of_nat (length (filter P l)).
Proof.
  revert c. induction l as [|k l IH]; intros c; simpl; [lia|].
  rewrite IH, sum_filter_counter_incr, filter_cons.
  destruct (decide (P k)); simpl; lia.
Qed.

(** The counts of a [Counter] kept by a filter on the keys add up to the
    number of elements of the list that pass the filter. *)
Lemma sum_filter_Counter (P : K → Prop) `{!∀ k, Decision (P k)} l :
  py_sum (dict_values (filter (λ kv : K * Z, P kv.1) (Counter l)))
  = Z.of_nat (length (filter P l)).
Proof.
  unfold Counter. rewrite sum_filter_foldl_counter_incr.
  by rewrite map_filter_empty, sum_values_empty.
Qed.

Lemma counter_get_incr c k k' :
  counter_get (counter_incr c k) k'
  = counter_get c k' + (if decide (k' = k) then 1 else 0).
Proof.
  unfold counter_incr, counter_get.
  destruct (decide (k' = k)) as [->|Hne].
  - by rewrite lookup_insert_eq.
  - rewrite lookup_insert_ne by done. lia.
Qed.

Lemma counter_get_Counter l k' :
  counter_get (Counter l) k' = Z.of_nat (length (filter (k' =.) l)).
Proof.
  unfold Counter.
  assert (∀ c, counter_get (foldl counter_incr c l) k'
               = counter_get c k' + Z.of_nat (length (filter (k' =.) l))) as Hgen.
  { induction l as [|k l IH]; intros c; simpl; [lia|].
    rewrite IH, counter_get_incr, filter_cons.
    destruct (decide (k' = k)); simpl; lia. }
  rewrite Hgen. unfold counter_get. rewrite lookup_empty. simpl. lia.
Qed.

End counter.

Section np_where.
Implicit Types (mask : list bool) (i j k : nat).

Lemma elem_of_np_where_from i mask j :
  j ∈ np_where_from i mask ↔ ∃ k, j = (i + k)%nat ∧ mask !! k = Some true.
Proof.
  revert i. induction mask as [|b m IH]; intros i; simpl.
  - split; [by intros ?%elem_of_nil|]. by intros (k & _ & ?).
  - rewrite elem_of_app, IH. split.
    + intros [Hj|(k & -> & Hk)].
      * destruct b; [|by apply elem_of_nil in Hj].
        apply list_elem_of_singleton in Hj as ->. exists 0%nat. split; [lia|done].
      * exists (S k). split; [lia|done].
    + intros ([|k] & -> & Hk); simpl in Hk.
      * left. injection Hk as ->. rewrite Nat.add_0_r. apply list_elem_of_here.
      * right. exists k. split; [lia|done].
Qed.

Lemma np_where_from_nil i mask :
  np_where_from i mask = [] → ∀ k, mask !! k ≠ Some true.
Proof.
  intros Hnil k Hk.
  assert ((i + k)%nat ∈ np_where_from i mask) as Hin
    by (apply elem_of_np_where_from; eauto).
  rewrite Hnil in Hin. by apply elem_of_nil in Hin.
Qed.

Lemma np_where_from_head i mask j rest :
  np_where_from i mask = j :: rest →
  ∃ k, j = (i + k)%nat ∧ mask !! k = Some true ∧
       ∀ k', (k' < k)%nat → mask !! k' = Some false.
Proof.
  revert i. induction mask as [|b m IH]; intros i; simpl; [done|].
  destruct b; simpl.
  - intros [= <- _]. exists 0%nat. split; [lia|]. split; [done|]. lia.
  - intros (k & -> & Hk & Hlt)%IH. exists (S k).
    split; [lia|]. split; [done|].
    intros [|k'] ?; [done|]. apply Hlt. lia.
Qed.

Lemma np_where_from_last i mask j :
  list.last (np_where_from i mask) = Some j →
  ∃ k, j = (i + k)%nat ∧ mask !! k = Some true ∧
       ∀ k', (k < k')%nat → mask !! k' ≠ Some true.
Proof.
  revert i. induction mask as [|b m IH]; intros i; simpl; [done|].
  rewrite last_app.
  destruct (list.last (np_where_from (S i) m)) as [y|] eqn:Hlast.
  - intros [= ->]. apply IH in Hlast as (k & -> & Hk & Hgt).
    exists (S k). split; [lia|]. split; [done|].
    intros [|k'] ?; [lia|]. apply Hgt. lia.
  - apply last_None in Hlast.
    destruct b; simpl; [|done]. intros [= <-].
    exists 0%nat. split; [lia|]. split; [done|].
    intros [|k'] ?; [lia|]. simpl. by eapply np_where_from_nil.
Qed.

End np_where.

Section masks.
Context (P : string → Prop) `{!∀ x, Decision (P x)}.
Implicit Types (ss : list string) (i j : nat).

Lemma lookup_mask_of_true ss i :
  mask_of P ss !! i = Some true ↔ ∃ x, ss !! i = Some x ∧ P x.
Proof.
  unfold mask_of. rewrite list_lookup_fmap.
  destruct (ss !! i) as [x|]; simpl; split.
  - intros [= Hx%bool_decide_eq_true]. eauto.
  - intros (y & [= <-] & HP). by rewrite bool_decide_eq_true_2.
  - done.
  - by intros (? & ? & _).
Qed.

Lemma lookup_mask_of_not_true ss i x :
  mask_of P ss !! i ≠ Some true → ss !! i = Some x → ¬ P x.
Proof. intros Hne Hx HP. apply Hne, lookup_mask_of_true. eauto. Qed.

Lemma first_index_unique ss i j :
  first_index P ss i → first_index P ss j → i = j.
Proof.
  intros [(x & Hx & HPx) Hi] [(y & Hy & HPy) Hj].
  destruct (Nat.lt_trichotomy i j) as [Hlt|[->|Hlt]]; [|done|].
  - by destruct (Hj i x Hlt Hx).
  - by destruct (Hi j y Hlt Hy).
Qed.

Lemma last_index_unique ss i j :
  last_index P ss i → last_index P ss j → i = j.
Proof.
  intros [(x & Hx & HPx) Hi] [(y & Hy & HPy) Hj].
  destruct (Nat.lt_trichotomy i j) as [Hlt|[->|Hlt]]; [|done|].
  - by destruct (Hi j y Hlt Hy).
  - by destruct (Hj i x Hlt Hx).
Qed.

Lemma np_where_mask_nil ss :
  np_where (mask_of P ss) = [] ↔ ∀ x, x ∈ ss → ¬ P x.
Proof.
  split.
  - intros Hnil x [i Hi]%list_elem_of_lookup.
    eapply lookup_mask_of_not_true; [|done]. by apply (np_where_from_nil 0).
  - intros Hall. destruct (np_where (mask_of P ss)) as [|j rest] eqn:Hw; [done|].
    apply np_where_from_head in Hw as (k & _ & (x & Hx & HP)%lookup_mask_of_true & _).
    destruct (Hall x); [|done]. apply list_elem_of_lookup. eauto.
Qed.

Lemma np_where_mask_head ss i rest :
  np_where (mask_of P ss) = i :: rest → first_index P ss i.
Proof.
  intros (k & -> & Hk & Hlt)%np_where_from_head. simpl. split.
  - by apply lookup_mask_of_true.
  - intros j x Hj Hx HP.
    assert (mask_of P ss !! j = Some true) as Htrue
      by (apply lookup_mask_of_true; eauto).
    rewrite (Hlt j Hj) in Htrue. done.
Qed.

Lemma first_index_np_where ss i :
  first_index P ss i → ∃ rest, np_where (mask_of P ss) = i :: rest.
Proof.
  intros Hi. destruct (np_where (mask_of P ss)) as [|j rest] eqn:Hw.
  - destruct Hi as [(x & Hx & HP) _].
    destruct (proj1 (np_where_mask_nil ss) Hw x); [|done].
    apply list_elem_of_lookup. eauto.
  - exists rest. f_equal.
    eapply first_index_unique; [|done]. by eapply np_where_mask_head.
Qed.

Lemma np_where_mask_last ss i :
  list.last (np_where (mask_of P ss)) = Some i → last_index P ss i.
Proof.
  intros (k & -> & Hk & Hgt)%np_where_from_last. simpl. split.
  - by apply lookup_mask_of_true.
  - intros j x Hj Hx. eapply lookup_mask_of_not_true; [|done]. by apply Hgt.
Qed.

End masks.

Section np_unique.
Implicit Types (a : list string) (x : string).

Lemma elem_of_np_unique a x : x ∈ np_unique a ↔ x ∈ a.
Proof.
  unfold np_unique. by rewrite merge_sort_Permutation, elem_of_remove_dups.
Qed.

Lemma NoDup_np_unique a : NoDup (np_unique a).
Proof.
  unfold np_unique. rewrite merge_sort_Permutation. apply NoDup_remove_dups.
Qed.

(** On a non-empty array, the test of [__init__] holds exactly when some
    label is not the wake label. *)
Lemma compute_has_slept_spec a :
  a ≠ [] → compute_has_slept a = Ok (bool_decide (some_sleep a)).
Proof.
  intros Hne. unfold compute_has_slept, some_sleep.
  pose proof (NoDup_np_unique a) as Hnd.
  pose proof (elem_of_np_unique a) as Hel.
  destruct (np_unique a) as [|u0 [|u1 u]] eqn:Hu; simpl.
  - destruct a as [|x a]; [done|].
    assert (x ∈ @nil string) as []%elem_of_nil. apply Hel. left.
  - f_equal. apply bool_decide_ext. rewrite list.Exists_exists. split.
    + intros Hu0. exists u0. split; [|done]. apply Hel. left.
    + intros (x & Hx%Hel & Hxw). by apply list_elem_of_singleton in Hx as ->.
  - f_equal. symmetry. apply bool_decide_eq_true_2, list.Exists_exists.
    destruct (decide (u0 = W_name)) as [->|H0].
    + exists u1. split; [apply Hel; right; left|].
      intros ->. apply list.NoDup_cons in Hnd as [Hnin _].
      apply Hnin. left.
    + exists u0. split; [apply Hel; left|done].
Qed.

Lemma compute_has_slept_nil : compute_has_slept [] = Ok true.
Proof. reflexivity. Qed.

End np_unique.

Section transitions.
Implicit Types (ss : list string) (i : nat).

Lemma zip_removelast {A B} (l : list A) (k : list B) :
  (length k < length l)%nat → zip (removelast l) k = zip l k.
Proof.
  revert k. induction l as [|a l IH]; intros k Hlen; [simpl in Hlen; lia|].
  destruct l as [|b l].
  - destruct k; [done|simpl in Hlen; lia].
  - destruct k as [|y k]; [done|].
    change (removelast (a :: b :: l)) with (a :: removelast (b :: l)).
    simpl zip. f_equal. apply IH. simpl in *. lia.
Qed.

Lemma zip_removelast_tail {A} (l : list A) :
  zip (removelast l) (tail l) = zip l (tail l).
Proof.
  destruct l as [|a l]; [done|]. apply zip_removelast. simpl. lia.
Qed.

Lemma length_filter_seq_S (Q : nat → Prop) `{!∀ i, Decision (Q i)} j n :
  length (filter Q (seq (S j) n)) = length (filter (λ i, Q (S i)) (seq j n)).
Proof.
  revert j. induction n as [|n IH]; intros j; [done|].
  simpl seq. rewrite !filter_cons.
  destruct (decide (Q (S j))); simpl; by rewrite IH.
Qed.

(** Counting the adjacent pairs of the zipped array is counting the indexes
    [i] of [0..n-2] whose pair [(s[i], s[i+1])] passes the test. *)
Lemma count_zip_pairs (P : string → string → Prop)
    `{!∀ a b, Decision (P a b)} ss :
  Z.of_nat (length (filter (λ p : string * string, P p.1 p.2)
                           (zip (removelast ss) (tail ss))))
  = count_pairs P ss.
Proof.
  rewrite zip_removelast_tail. unfold count_pairs. f_equal.
  induction ss as [|a ss IH]; [done|].
  destruct ss as [|b r]; [done|].
  change (length (a :: b :: r) - 1)%nat with (S (length r)).
  change (length (b :: r) - 1)%nat with (length r - 0)%nat in IH.
  rewrite Nat.sub_0_r in IH.
  change (zip (a :: b :: r) (tail (a :: b :: r)))
    with ((a, b) :: zip (b :: r) (tail (b :: r))).
  change (seq 0 (S (length r))) with (0%nat :: seq 1 (length r)).
  rewrite !filter_cons.
  change (pair_at P (a :: b :: r) 0) with (P a b). simpl fst. simpl snd.
  assert (length (filter (pair_at P (a :: b :: r)) (seq 1 (length r)))
          = length (filter (pair_at P (b :: r)) (seq 0 (length r)))) as Hshift.
  { by rewrite (length_filter_seq_S (pair_at P (a :: b :: r))). }
  destruct (decide (P a b)); simpl length; rewrite Hshift, <-IH; done.
Qed.

Lemma sum_transition_occurences ss :
  py_sum (dict_values
            (filter (λ kv : string * string * Z, kv.1.1 ≠ kv.1.2)
                    (Counter (zip (removelast ss) (tail ss)))))
  = count_pairs is_shift ss.
Proof.
  etrans; [|apply (count_zip_pairs is_shift)].
  exact (sum_filter_Counter (λ k : string * string, is_shift k.1 k.2)
                            (zip (removelast ss) (tail ss))).
Qed.

Lemma sum_awakenings_occurences ss :
  py_sum (dict_values
            (filter (λ kv : string * string * Z,
                       kv.1.1 ≠ W_name ∧ kv.1.2 = W_name)
               (filter (λ kv : string * string * Z, kv.1.1 ≠ kv.1.2)
                       (Counter (zip (removelast ss) (tail ss))))))
  = count_pairs is_awakening ss.
Proof.
  set (c := Counter (zip (removelast ss) (tail ss))).
  assert (filter (λ kv : string * string * Z,
                    kv.1.1 ≠ W_name ∧ kv.1.2 = W_name)
            (filter (λ kv : string * string * Z, kv.1.1 ≠ kv.1.2) c)
          = filter (λ kv : string * string * Z, is_awakening kv.1.1 kv.1.2) c)
    as ->.
  { apply map_filter_strong_ext. intros [a b] v.
    rewrite map_lookup_filter_Some. unfold is_awakening. simpl. split.
    - intros (Haw & Hc & _). done.
    - intros ([Ha ->] & Hc). done. }
  etrans; [|apply (count_zip_pairs is_awakening)].
  exact (sum_filter_Counter
           (λ k : string * string, is_awakening k.1 k.2)
           (zip (removelast ss) (tail ss))).
Qed.

Lemma _initialize_transition_based_metrics_spec ss (ils hs : bool) :
  _initialize_transition_based_metrics ss ils hs
  = (count_pairs is_shift ss + (if (ils && hs)%bool then 1 else 0),
     count_pairs is_awakening ss + (if (ils && hs)%bool then 1 else 0)).
Proof.
  unfold _initialize_transition_based_metrics. cbv zeta.
  rewrite <-(sum_transition_occurences ss), <-(sum_awakenings_occurences ss).
  destruct (ils && hs)%bool; [done|]. by rewrite !Z.add_0_r.
Qed.

End transitions.

(** * The constructor *)

Section init.
Variable EPOCH_DURATION : Z.
Implicit Types (ss : list string) (b : Z) (i j : nat).

Lemma np_ne_mask ss : np_ne ss W_name = mask_of is_sleep ss.
Proof. reflexivity. Qed.

Lemma np_eq_mask ss : np_eq ss REM_name = mask_of is_rem ss.
Proof. reflexivity. Qed.

Lemma some_sleep_np_where ss :
  some_sleep ss ↔ np_where (np_ne ss W_name) ≠ [].
Proof.
  rewrite np_ne_mask, np_where_mask_nil. unfold some_sleep. split.
  - intros (x & Hx & Hs)%list.Exists_exists Hall. by apply (Hall x).
  - intros Hnot. destruct (decide (Exists is_sleep ss)) as [|Hno]; [done|].
    destruct Hnot. intros x Hx Hs. apply Hno, list.Exists_exists. eauto.
Qed.

Lemma some_sleep_nonempty ss : some_sleep ss → ss ≠ [].
Proof. intros Hs ->. by apply Exists_nil in Hs. Qed.

(** The first and the last sleep index of a sequence with some sleep. *)
Lemma some_sleep_indexes ss :
  some_sleep ss →
  ∃ j i rest,
    np_where (np_ne ss W_name) = j :: rest ∧
    list.last (np_where (np_ne ss W_name)) = Some i ∧
    first_index is_sleep ss j ∧ last_index is_sleep ss i.
Proof.
  intros Hne%some_sleep_np_where.
  destruct (np_where (np_ne ss W_name)) as [|j rest] eqn:Hw; [done|].
  destruct (list.last (j :: rest)) as [i|] eqn:Hlast;
    [|by apply last_None in Hlast].
  exists j, i, rest. split; [done|]. split; [done|].
  rewrite np_ne_mask in Hw. split.
  - by eapply (np_where_mask_head is_sleep).
  - apply (np_where_mask_last is_sleep). by rewrite Hw.
Qed.

(** A REM epoch is a sleep epoch: the first one is not before the sleep
    onset. *)
Lemma first_rem_after_first_sleep ss i j :
  first_index is_rem ss i → first_index is_sleep ss j → (j ≤ i)%nat.
Proof.
  intros [(x & Hx & Hrem) _] [_ Hj].
  destruct (decide (j ≤ i)%nat) as [|Hlt]; [done|].
  destruct (Hj i x); [lia|done|]. by rewrite Hrem.
Qed.

Lemma Metrics_init_some_sleep ss b :
  some_sleep ss →
  ∃ j i x,
    first_index is_sleep ss j ∧ last_index is_sleep ss i ∧
    list.last ss = Some x ∧
    list.last (np_where (np_ne ss W_name)) = Some i ∧
    Metrics_init EPOCH_DURATION ss b
    = Ok (mkMetrics ss b true (np_ne ss W_name)
            (np_where (np_ne ss W_name)) (bool_decide (x ≠ W_name))
            (Some (num_binop Z.add
                     (NpInt64 ((Z.of_nat i + 1) * EPOCH_DURATION)) (PyInt b)))
            (Some (Z.of_nat j * EPOCH_DURATION))
            (rem_latency_from EPOCH_DURATION ss j)
            (count_pairs is_shift ss
             + (if bool_decide (x ≠ W_name) then 1 else 0))
            (count_pairs is_awakening ss
             + (if bool_decide (x ≠ W_name) then 1 else 0))).
Proof.
  intros Hs.
  pose proof (some_sleep_nonempty ss Hs) as Hne.
  destruct (some_sleep_indexes ss Hs) as (j & i & rest & Hw & Hlast & Hj & Hi).
  destruct (list.last ss) as [x|] eqn:Hx; [|by apply last_None in Hx].
  exists j, i, x. do 4 (split; [done|]).
  unfold Metrics_init.
  rewrite (compute_has_slept_spec ss Hne), (bool_decide_eq_true_2 _ Hs).
  unfold getitem_last at 1. rewrite Hx. simpl.
  unfold _initialize_sleep_offset, getitem_last. rewrite Hlast.
  rewrite decide_True by (rewrite Hw; done). simpl.
  unfold _initialize_sleep_latency, _initialize_rem_latency,
    _get_latency_of_stage, rem_latency_from.
  rewrite Hw, _initialize_transition_based_metrics_spec, andb_true_r.
  by destruct (np_where (np_eq ss REM_name)).
Qed.

Lemma Metrics_init_all_wake ss b :
  ss ≠ [] → ¬ some_sleep ss →
  Metrics_init EPOCH_DURATION ss b
  = Ok (mkMetrics ss b false (np_ne ss W_name) [] false None None None
          (count_pairs is_shift ss) (count_pairs is_awakening ss)).
Proof.
  intros Hne Hs.
  assert (np_where (np_ne ss W_name) = []) as Hw.
  { apply dec_stable. by rewrite <-some_sleep_np_where. }
  destruct (list.last ss) as [x|] eqn:Hx; [|by apply last_None in Hx].
  assert (x = W_name) as ->.
  { apply dec_stable. intros Hxw. apply Hs, list.Exists_exists.
    exists x. split; [|done]. apply last_Some in Hx as [l' ->]. set_solver. }
  unfold Metrics_init.
  rewrite (compute_has_slept_spec ss Hne), (bool_decide_eq_false_2 _ Hs).
  unfold getitem_last. rewrite Hx.
  cbn -[_initialize_transition_based_metrics].
  unfold _initialize_sleep_latency, _get_latency_of_stage.
  rewrite Hw, _initialize_transition_based_metrics_spec. simpl.
  by rewrite !Z.add_0_r.
Qed.

Lemma Metrics_init_nil b :
  Metrics_init EPOCH_DURATION [] b = Raise IndexError.
Proof. reflexivity. Qed.

End init.

(** * The report *)

Section report.
Variable EPOCH_DURATION : Z.
Variable SleepStage_tolist : list string.
Implicit Types (ss : list string) (b : Z) (i j : nat).

Lemma py_truediv_zero (n : Z) : n ≠ 0 → py_truediv 0 n = Ok 0%Qc.
Proof. intros Hn. unfold py_truediv. by rewrite decide_False. Qed.

Lemma py_truediv_len (k n : Z) :
  0 ≤ k ≤ n → 0 < n → py_truediv k n = Ok (efficiency_of k n).
Proof.
  intros Hk Hn. unfold py_truediv, efficiency_of.
  rewrite decide_False by lia.
  destruct (decide (k = 0)) as [|Hk0]; [done|].
  assert (2 ≤ 2 ^ 1024 - 2 ^ 970) as Hbig by (by vm_compute).
  rewrite !Z.abs_eq, !Z.sgn_pos by lia.
  rewrite decide_False.
  - f_equal. apply Qcmult_1_l.
  - revert Hbig. generalize (2 ^ 1024 - 2 ^ 970). intros big Hbig. nia.
Qed.

Lemma length_np_where_le (mask : list bool) (i : nat) :
  (length (np_where_from i mask) ≤ length mask)%nat.
Proof.
  revert i. induction mask as [|c mask IH]; intros i; simpl; [lia|].
  rewrite length_app. specialize (IH (S i)). destruct c; simpl; lia.
Qed.

(** The report of an object built on a sequence with some sleep. *)
Lemma report_some_sleep ss b i j (ils : bool) (rem : pyint) (shifts awak : Z) :
  ss ≠ [] →
  list.last (np_where (np_ne ss W_name)) = Some i →
  let off := plus_bedtime b ((Z.of_nat i + 1) * EPOCH_DURATION) in
  let lat := Z.of_nat j * EPOCH_DURATION in
  let k := Z.of_nat (length (np_where (np_ne ss W_name))) in
  let n := Z.of_nat (length ss) in
  let self := mkMetrics ss b true (np_ne ss W_name)
                (np_where (np_ne ss W_name)) ils (Some off) (Some lat) rem
                shifts awak in
  report EPOCH_DURATION SleepStage_tolist self
  = Ok (mkReport (Some (int_of_int64 off)) (Some lat) rem awak shifts
          (int_of_int64 (num_binop Z.sub off (plus_bedtime b lat)))
          (int_of_int64
             (num_binop Z.sub (num_binop Z.sub off (plus_bedtime b lat))
                        (PyInt (k * EPOCH_DURATION))))
          (efficiency_of k n) (k * EPOCH_DURATION)
          (if ils then 0 else (n - Z.of_nat i - 1) * EPOCH_DURATION)
          (Some (int_of_int64 (plus_bedtime b lat)))
          ((λ v, int_of_int64 (plus_bedtime b v)) <$> rem)
          (_time_passed_in_stage EPOCH_DURATION SleepStage_tolist self)).
Proof.
  intros Hne Hlast off lat k n self.
  assert (0 < n) as Hn by (unfold n; destruct ss; [done|simpl; lia]).
  assert (0 ≤ k ≤ n) as Hk.
  { pose proof (length_np_where_le (np_ne ss W_name) 0) as Hle.
    assert (length (np_ne ss W_name) = length ss) as Hlen
      by apply length_fmap.
    unfold k, n, np_where. lia. }
  unfold report, _sleep_time, _wake_after_sleep_onset, _sleep_onset,
    _sleep_time, _sleep_efficiency, _wake_after_sleep_offset, _rem_onset,
    _efficient_sleep_time.
  cbn [has_slept _sleep_latency _sleep_offset bedtime sleep_indexes
       sleep_stages is_last_stage_sleep _rem_latency _awakenings
       _stage_shifts self negb num_add num_sub fmap option_fmap option_map
       mbind mret result_bind result_ret].
  fold k n. rewrite (py_truediv_len _ _ Hk Hn).
  unfold getitem_last. rewrite Hlast.
  destruct ils, rem; reflexivity.
Qed.

(** The report of an object built on a sequence of wake epochs only. *)
Lemma report_all_wake ss b (shifts awak : Z) :
  ss ≠ [] →
  let self := mkMetrics ss b false (np_ne ss W_name) [] false None None None
                shifts awak in
  report EPOCH_DURATION SleepStage_tolist self
  = Ok (mkReport None None None awak shifts 0 0 0%Qc 0 0 None None
          (_time_passed_in_stage EPOCH_DURATION SleepStage_tolist self)).
Proof.
  intros Hne self.
  assert (Z.of_nat (length ss) ≠ 0) as Hn by (destruct ss; [done|simpl; lia]).
  unfold report, _sleep_time, _wake_after_sleep_onset, _sleep_onset,
    _sleep_efficiency, _wake_after_sleep_offset, _rem_onset,
    _efficient_sleep_time.
  cbn [has_slept _sleep_latency _sleep_offset bedtime sleep_indexes
       sleep_stages is_last_stage_sleep _rem_latency _awakenings
       _stage_shifts self negb mbind mret result_bind result_ret].
  change (Z.of_nat (length (@nil nat))) with 0.
  rewrite (py_truediv_zero _ Hn). reflexivity.
Qed.

End report.

(** * Construction followed by the report *)

Section run.
Variable EPOCH_DURATION : Z.
Variable SleepStage_tolist : list string.
Implicit Types (ss : list string) (b : Z) (i j : nat).

Lemma run_some_sleep ss b :
  some_sleep ss →
  ∃ j i x m r,
    first_index is_sleep ss j ∧ last_index is_sleep ss i ∧
    list.last ss = Some x ∧
    list.last (np_where (np_ne ss W_name)) = Some i ∧
    Metrics_init EPOCH_DURATION ss b = Ok m ∧
    report EPOCH_DURATION SleepStage_tolist m = Ok r ∧
    m = mkMetrics ss b true (np_ne ss W_name)
          (np_where (np_ne ss W_name)) (bool_decide (x ≠ W_name))
          (Some (plus_bedtime b ((Z.of_nat i + 1) * EPOCH_DURATION)))
          (Some (Z.of_nat j * EPOCH_DURATION))
          (rem_latency_from EPOCH_DURATION ss j)
          (count_pairs is_shift ss
           + (if bool_decide (x ≠ W_name) then 1 else 0))
          (count_pairs is_awakening ss
           + (if bool_decide (x ≠ W_name) then 1 else 0)) ∧
    r = mkReport
          (Some (int_of_int64
                   (plus_bedtime b ((Z.of_nat i + 1) * EPOCH_DURATION))))
          (Some (Z.of_nat j * EPOCH_DURATION))
          (rem_latency_from EPOCH_DURATION ss j)
          (count_pairs is_awakening ss
           + (if bool_decide (x ≠ W_name) then 1 else 0))
          (count_pairs is_shift ss
           + (if bool_decide (x ≠ W_name) then 1 else 0))
          (int_of_int64
             (num_binop Z.sub
                (plus_bedtime b ((Z.of_nat i + 1) * EPOCH_DURATION))
                (plus_bedtime b (Z.of_nat j * EPOCH_DURATION))))
          (int_of_int64
             (num_binop Z.sub
                (num_binop Z.sub
                   (plus_bedtime b ((Z.of_nat i + 1) * EPOCH_DURATION))
                   (plus_bedtime b (Z.of_nat j * EPOCH_DURATION)))
                (PyInt (Z.of_nat (length (np_where (np_ne ss W_name)))
                        * EPOCH_DURATION))))
          (efficiency_of (Z.of_nat (length (np_where (np_ne ss W_name))))
                         (Z.of_nat (length ss)))
          (Z.of_nat (length (np_where (np_ne ss W_name))) * EPOCH_DURATION)
          (if bool_decide (x ≠ W_name) then 0
           else (Z.of_nat (length ss) - Z.of_nat i - 1) * EPOCH_DURATION)
          (Some (int_of_int64 (plus_bedtime b (Z.of_nat j * EPOCH_DURATION))))
          ((λ v, int_of_int64 (plus_bedtime b v))
             <$> rem_latency_from EPOCH_DURATION ss j)
          (_time_passed_in_stage EPOCH_DURATION SleepStage_tolist m).
Proof.
  intros Hs.
  destruct (Metrics_init_some_sleep EPOCH_DURATION ss b Hs)
    as (j & i & x & Hj & Hi & Hx & Hlast & Hinit).
  eexists j, i, x, _, _. do 4 (split; [done|]).
  split; [exact Hinit|].
  split; [|split; reflexivity].
  by apply report_some_sleep; [apply some_sleep_nonempty|].
Qed.

Lemma run_all_wake ss b :
  ss ≠ [] → ¬ some_sleep ss →
  ∃ m r,
    Metrics_init EPOCH_DURATION ss b = Ok m ∧
    report EPOCH_DURATION SleepStage_tolist m = Ok r ∧
    m = mkMetrics ss b false (np_ne ss W_name) [] false None None None
          (count_pairs is_shift ss) (count_pairs is_awakening ss) ∧
    r = mkReport None None None (count_pairs is_awakening ss)
          (count_pairs is_shift ss) 0 0 0%Qc 0 0 None None
          (_time_passed_in_stage EPOCH_DURATION SleepStage_tolist m).
Proof.
  intros Hne Hs. eexists _, _.
  split; [by apply Metrics_init_all_wake|].
  split; [|split; reflexivity].
  by apply report_all_wake.
Qed.

End run.

(** * Counting adjacent pairs *)

Section count_pairs.
Implicit Types (ss : list string) (i : nat).

Lemma length_filter_mono {A} (P Q : A → Prop)
    `{!∀ x, Decision (P x)} `{!∀ x, Decision (Q x)} (l : list A) :
  (∀ x, P x → Q x) → (length (filter P l) ≤ length (filter Q l))%nat.
Proof.
  intros HPQ. induction l as [|x l IH]; [done|].
  rewrite !filter_cons.
  destruct (decide (P x)) as [HP|HP], (decide (Q x)) as [HQ|HQ]; simpl;
    [lia|by destruct HQ; apply HPQ|lia|lia].
Qed.

Lemma count_pairs_nonneg (P : string → string → Prop)
    `{!∀ a b, Decision (P a b)} ss : 0 ≤ count_pairs P ss.
Proof. unfold count_pairs. lia. Qed.

Lemma count_pairs_mono (P Q : string → string → Prop)
    `{!∀ a b, Decision (P a b)} `{!∀ a b, Decision (Q a b)} ss :
  (∀ a b, P a b → Q a b) → count_pairs P ss ≤ count_pairs Q ss.
Proof.
  intros HPQ. unfold count_pairs. apply inj_le, length_filter_mono.
  intros i. unfold pair_at. destruct (ss !! i), (ss !! S i); auto.
Qed.

Lemma count_pairs_none (P : string → string → Prop)
    `{!∀ a b, Decision (P a b)} ss :
  (∀ i, ¬ pair_at P ss i) → count_pairs P ss = 0.
Proof.
  intros Hno. unfold count_pairs.
  enough (filter (pair_at P ss) (seq 0 (length ss - 1)) = []) as -> by done.
  induction (seq 0 (length ss - 1)) as [|i l IH]; [done|].
  rewrite filter_cons, decide_False by apply Hno. exact IH.
Qed.

Lemma count_pairs_pos (P : string → string → Prop)
    `{!∀ a b, Decision (P a b)} ss i :
  pair_at P ss i → 1 ≤ count_pairs P ss.
Proof.
  intros Hi. unfold count_pairs.
  assert (i ∈ filter (pair_at P ss) (seq 0 (length ss - 1))) as Hin.
  { apply list_elem_of_filter. split; [done|]. apply elem_of_seq.
    unfold pair_at in Hi.
    destruct (ss !! i); [|done].
    destruct (ss !! S i) eqn:HS; [|done].
    apply lookup_lt_Some in HS. lia. }
  destruct (filter (pair_at P ss) (seq 0 (length ss - 1)));
    [by apply elem_of_nil in Hin|simpl; lia].
Qed.

(** When the last epoch is wake, the epoch after the last sleep index is
    wake: an awakening. *)
Lemma awakening_after_last_sleep ss i :
  last_index is_sleep ss i → list.last ss = Some W_name →
  pair_at is_awakening ss i.
Proof.
  intros [(a & Ha & Hsleep) Hafter] Hlast.
  rewrite last_lookup in Hlast.
  pose proof (lookup_lt_Some _ _ _ Ha) as Hlt.
  assert (i ≠ pred (length ss)) as Hne.
  { intros ->. rewrite Ha in Hlast. by injection Hlast as ->. }
  destruct (lookup_lt_is_Some_2 ss (S i)) as [c Hc]; [lia|].
  unfold pair_at. rewrite Ha, Hc. split; [done|].
  destruct (decide (c = W_name)) as [|Hcw]; [done|].
  destruct (Hafter (S i) c); [lia|done|exact Hcw].
Qed.

(** Without a sleep epoch there is no awakening. *)
Lemma no_awakening_without_sleep ss :
  ¬ some_sleep ss → count_pairs is_awakening ss = 0.
Proof.
  intros Hs. apply count_pairs_none. intros i Hi. unfold pair_at in Hi.
  destruct (ss !! i) as [a|] eqn:Ha; [|done].
  destruct (ss !! S i); [|done]. destruct Hi as [Haw _]. apply Hs.
  apply list.Exists_exists. exists a. split; [|done].
  apply list_elem_of_lookup. eauto.
Qed.

End count_pairs.

(** * Time passed in each stage *)

Section stage_times.
Variable EPOCH_DURATION : Z.
Implicit Types (ss stages : list string) (x s : string).

Lemma py_sum_fmap_add {A} (f g : A → Z) (l : list A) :
  py_sum ((λ a, f a + g a) <$> l) = py_sum (f <$> l) + py_sum (g <$> l).
Proof.
  induction l as [|a l IH]; [done|].
  rewrite !fmap_cons, !py_sum_cons, IH. lia.
Qed.

Lemma py_sum_fmap_scale {A} (c : Z) (g : A → Z) (l : list A) :
  py_sum ((λ a, c * g a) <$> l) = c * py_sum (g <$> l).
Proof.
  induction l as [|a l IH]; [simpl; change (py_sum []) with 0; lia|].
  rewrite !fmap_cons, !py_sum_cons, IH. lia.
Qed.

Lemma py_sum_indicator_absent x stages :
  x ∉ stages →
  py_sum ((λ s, if decide (s = x) then 1 else 0) <$> stages) = 0.
Proof.
  induction stages as [|a l IH]; [done|].
  intros [Hne Hnin]%not_elem_of_cons.
  rewrite fmap_cons, py_sum_cons, IH by done.
  by rewrite decide_False by done.
Qed.

Lemma py_sum_indicator_present x stages :
  NoDup stages → x ∈ stages →
  py_sum ((λ s, if decide (s = x) then 1 else 0) <$> stages) = 1.
Proof.
  induction stages as [|a l IH]; [by intros _ ?%elem_of_nil|].
  intros [Hnin Hnd]%list.NoDup_cons Hin.
  rewrite fmap_cons, py_sum_cons.
  destruct (decide (a = x)) as [->|Hne].
  - by rewrite py_sum_indicator_absent.
  - apply elem_of_cons in Hin as [->|Hin]; [done|]. by rewrite IH.
Qed.

(** Every epoch is counted for exactly one of the stage names. *)
Lemma sum_counts_by_stage stages ss :
  NoDup stages → (∀ x, x ∈ ss → x ∈ stages) →
  py_sum ((λ s, Z.of_nat (length (filter (s =.) ss))) <$> stages)
  = Z.of_nat (length ss).
Proof.
  intros Hnd. induction ss as [|x ss IH]; intros Hin.
  - simpl. clear Hnd Hin. induction stages as [|a l IHl]; [done|].
    by rewrite fmap_cons, py_sum_cons, IHl.
  - rewrite (list_fmap_ext _
               (λ s, (if decide (s = x) then 1 else 0)
                     + Z.of_nat (length (filter (s =.) ss)))).
    + rewrite py_sum_fmap_add, py_sum_indicator_present, IH.
      * simpl length. lia.
      * intros y Hy. apply Hin. by right.
      * done.
      * apply Hin. left.
    + intros _ s _. rewrite filter_cons.
      destruct (decide (s = x)); simpl length; lia.
Qed.

Lemma sum_foldl_insert (f : string → string) (g : string → Z) stages
    (d : gmap string Z) :
  NoDup (f <$> stages) → (∀ s, s ∈ stages → d !! f s = None) →
  py_sum (dict_values (foldl (λ d s, <[f s := g s]> d) d stages))
  = py_sum (dict_values d) + py_sum (g <$> stages).
Proof.
  revert d. induction stages as [|a l IH]; intros d Hnd Hfresh.
  - simpl. change (py_sum []) with 0. lia.
  - rewrite fmap_cons in Hnd. apply list.NoDup_cons in Hnd as [Hnin Hnd].
    simpl foldl. rewrite IH, sum_values_insert_fresh, fmap_cons, py_sum_cons.
    + lia.
    + apply Hfresh. left.
    + done.
    + intros s Hs. rewrite lookup_insert_ne.
      * apply Hfresh. by right.
      * intros Heq. apply Hnin. rewrite Heq. by apply list_elem_of_fmap_2.
Qed.

(** The stage times add up to the duration of the recording when the keys
    of the stages are distinct and every label is a stage name. *)
Lemma sum_time_passed_in_stage stages (self : Metrics) :
  NoDup ((λ s, upper s +:+ "Time")%string <$> stages) →
  (∀ x, x ∈ sleep_stages self → x ∈ stages) →
  py_sum (dict_values (_time_passed_in_stage EPOCH_DURATION stages self))
  = Z.of_nat (length (sleep_stages self)) * EPOCH_DURATION.
Proof.
  intros Hnd Hin. unfold _time_passed_in_stage. cbv zeta.
  rewrite (sum_foldl_insert (λ s, upper s +:+ "Time")%string) by done.
  rewrite sum_values_empty.
  rewrite (list_fmap_ext _
             (λ s, EPOCH_DURATION
                   * Z.of_nat (length (filter (s =.) (sleep_stages self))))).
  - rewrite py_sum_fmap_scale, sum_counts_by_stage; [lia| |done].
    by eapply NoDup_fmap_1.
  - intros _ s _. rewrite <-counter_get_Counter. unfold counter_get.
    destruct (Counter (sleep_stages self) !! s); simpl; lia.
Qed.

End stage_times.

(** * The arithmetic of [np.int64] *)

Section int64.
Implicit Types (x y z b p : Z).

Lemma wrap64_id z : in_int64 z → wrap64 z = z.
Proof.
  unfold in_int64, wrap64. intros Hz.
  rewrite Z.mod_small by lia. lia.
Qed.

Lemma wrap64_sub x y : wrap64 (wrap64 x - wrap64 y) = wrap64 (x - y).
Proof.
  unfold wrap64. f_equal.
  replace ((x + 2 ^ 63) mod 2 ^ 64 - 2 ^ 63
           - ((y + 2 ^ 63) mod 2 ^ 64 - 2 ^ 63) + 2 ^ 63)
    with ((x + 2 ^ 63) mod 2 ^ 64 - (y + 2 ^ 63) mod 2 ^ 64 + 2 ^ 63) by lia.
  rewrite Zplus_mod, <-Zminus_mod, <-Zplus_mod. f_equal. lia.
Qed.

Lemma plus_bedtime_int64 b x :
  in_int64 b → plus_bedtime b x = NpInt64 (wrap64 (x + b)).
Proof.
  intros Hb. unfold plus_bedtime, num_binop, int64_with_int.
  by rewrite decide_True.
Qed.

Lemma plus_bedtime_fits b x :
  in_int64 b → in_int64 (x + b) → plus_bedtime b x = NpInt64 (x + b).
Proof. intros Hb Hx. by rewrite plus_bedtime_int64, wrap64_id. Qed.

(** The difference of two values that carry the same bedtime does not
    depend on it, even when the sums have wrapped around. *)
Lemma sub_plus_bedtime b x y :
  in_int64 b → in_int64 (x - y) →
  num_binop Z.sub (plus_bedtime b x) (plus_bedtime b y) = NpInt64 (x - y).
Proof.
  intros Hb Hxy. rewrite !plus_bedtime_int64 by done.
  unfold num_binop. rewrite wrap64_sub.
  replace (x + b - (y + b)) with (x - y) by lia. by rewrite wrap64_id.
Qed.

Lemma sub_int64_int x p :
  in_int64 p → in_int64 (x - p) →
  num_binop Z.sub (NpInt64 x) (PyInt p) = NpInt64 (x - p).
Proof.
  intros Hp Hx. unfold num_binop, int64_with_int.
  by rewrite decide_True, wrap64_id.
Qed.

End int64.

(** * Properties of the metrics *)

(** The flag [has_slept] of a constructed object tells whether some epoch
    is not labeled wake, and [is_last_stage_sleep] whether the last one is
    not. *)
Lemma flags_spec (E : Z) (ss : list string) (b : Z) (m : Metrics) :
  ss ≠ [] → Metrics_init E ss b = Ok m →
  (has_slept m = true ↔ some_sleep ss) ∧
  (is_last_stage_sleep m = true ↔ last_is_sleep ss).
Proof.
  intros Hne Hinit. unfold last_is_sleep.
  destruct (decide (some_sleep ss)) as [Hs|Hs].
  - destruct (Metrics_init_some_sleep E ss b Hs)
      as (j & i & x & _ & _ & Hx & _ & Hinit').
    rewrite Hinit' in Hinit. injection Hinit as <-. simpl. split; [done|].
    rewrite Hx, bool_decide_eq_true. split; [eauto|].
    by intros (y & [= <-] & Hy).
  - rewrite (Metrics_init_all_wake E ss b Hne Hs) in Hinit.
    injection Hinit as <-. simpl. split; [done|]. split; [done|].
    intros (y & Hy & Hyw). destruct Hs. apply list.Exists_exists.
    exists y. split; [|done]. apply last_Some in Hy as [l' ->]. set_solver.
Qed.

(** C1, as the code has it.  On a sequence with some sleep and a REM
    epoch, the reported [remLatency] is the index of the first REM epoch
    times the epoch duration, less the reported [sleepLatency]; [remOnset]
    is the [np.int64] sum of [remLatency] and the bedtime, which is their
    sum when the bedtime and the sum fit [np.int64]; both are [None] when
    the subject never slept or no epoch is REM. *)
Theorem rem_latency_and_onset (E : Z) (stages ss : list string) (b : Z) :
  ss ≠ [] →
  ∃ m r,
    Metrics_init E ss b = Ok m ∧ report E stages m = Ok r ∧
    (has_slept m = true ↔ some_sleep ss) ∧
    (∀ i, has_slept m = true → first_index is_rem ss i →
       ∃ sl, sleepLatency r = Some sl ∧
             remLatency r = Some (Z.of_nat i * E - sl) ∧
             remOnset r
             = Some (int_of_int64 (plus_bedtime b (Z.of_nat i * E - sl))) ∧
             (in_int64 b → in_int64 (Z.of_nat i * E - sl + b) →
              remOnset r = Some (PyInt (Z.of_nat i * E - sl + b)))) ∧
    (has_slept m = false ∨ (∀ x, x ∈ ss → ¬ is_rem x) →
     remLatency r = None ∧ remOnset r = None).
Proof.
  intros Hne. destruct (decide (some_sleep ss)) as [Hs|Hs].
  - destruct (run_some_sleep E stages ss b Hs)
      as (j & i & x & m & r & Hj & Hi & Hx & Hlast & Hinit & Hrep & Hm & Hr).
    exists m, r. do 2 (split; [done|]). subst m r. simpl.
    split; [done|]. unfold rem_latency_from. rewrite np_eq_mask. split.
    + intros i0 _ Hrem.
      destruct (first_index_np_where is_rem ss i0 Hrem) as [rest ->].
      eexists. do 3 (split; [reflexivity|]). intros Hb Hsum.
      simpl. by rewrite plus_bedtime_fits.
    + intros [[=]|Hno]. by apply (np_where_mask_nil is_rem) in Hno as ->.
  - destruct (run_all_wake E stages ss b Hne Hs)
      as (m & r & Hinit & Hrep & Hm & Hr).
    exists m, r. do 2 (split; [done|]). subst m r. simpl.
    split; [done|]. split; [by intros ? [=]|done].
Qed.

Lemma rem_latency_and_onset_witness :
  demo_night ≠ [] ∧
  ∃ m r,
    Metrics_init 30 demo_night 0 = Ok m ∧ report 30 demo_stages m = Ok r ∧
    (has_slept m = true ↔ some_sleep demo_night) ∧
    (∀ i, has_slept m = true → first_index is_rem demo_night i →
       ∃ sl, sleepLatency r = Some sl ∧
             remLatency r = Some (Z.of_nat i * 30 - sl) ∧
             remOnset r
             = Some (int_of_int64 (plus_bedtime 0 (Z.of_nat i * 30 - sl))) ∧
             (in_int64 0 → in_int64 (Z.of_nat i * 30 - sl + 0) →
              remOnset r = Some (PyInt (Z.of_nat i * 30 - sl + 0)))) ∧
    (has_slept m = false ∨ (∀ x, x ∈ demo_night → ¬ is_rem x) →
     remLatency r = None ∧ remOnset r = None).
Proof.
  split; [done|]. apply (rem_latency_and_onset 30 demo_stages demo_night 0).
  done.
Defined.

(** C1, counterexample: with the bedtime [2^63 - 1] the sum of [remLatency]
    and the bedtime does not fit [np.int64]; the reported [remOnset] is the
    wrapped value, not the sum. *)
Lemma rem_onset_wraps_around :
  ∃ m r,
    Metrics_init 30 demo_night (2 ^ 63 - 1) = Ok m ∧
    report 30 demo_stages m = Ok r ∧
    has_slept m = true ∧
    first_index is_rem demo_night 4 ∧
    sleepLatency r = Some 60 ∧
    remLatency r = Some (4 * 30 - 60) ∧
    remOnset r = Some (PyInt (-9223372036854775749)) ∧
    remOnset r ≠ Some (PyInt (4 * 30 - 60 + (2 ^ 63 - 1))).
Proof.
  eexists _, _. split; [vm_compute; reflexivity|].
  split; [vm_compute; reflexivity|]. split; [reflexivity|]. split.
  - split; [by exists REM_name|].
    intros j x Hj Hx Hrem. unfold is_rem in Hrem. subst x.
    do 4 (destruct j as [|j]; [by vm_compute in Hx|]). lia.
  - split; [reflexivity|]. split; [reflexivity|].
    split; [reflexivity|]. vm_compute. discriminate.
Qed.

(** C2, as the code has it.  Construction fails on the empty sequence only:
    the read of the last epoch raises [IndexError], before any metric is
    computed.  On every non-empty sequence, whatever its labels, the object
    is built and its report is produced. *)
Theorem construction_outcome (E : Z) (stages ss : list string) (b : Z) :
  match ss with
  | [] => Metrics_init E ss b = Raise IndexError
  | _ :: _ => ∃ m r, Metrics_init E ss b = Ok m ∧ report E stages m = Ok r
  end.
Proof.
  destruct ss as [|x ss'] eqn:Hss; [done|]. rewrite <-Hss.
  assert (ss ≠ []) as Hne by (by subst).
  clear Hss. destruct (decide (some_sleep ss)) as [Hs|Hs].
  - destruct (run_some_sleep E stages ss b Hs)
      as (? & ? & ? & m & r & _ & _ & _ & _ & Hinit & Hrep & _). eauto.
  - destruct (run_all_wake E stages ss b Hne Hs)
      as (m & r & Hinit & Hrep & _). eauto.
Qed.

(** C2, counterexample: a label outside the stage names does not make the
    construction fail; the sequence [["X"]] is constructed. *)
Lemma unknown_label_is_accepted :
  ¬ (∀ (ss : list string) (b : Z),
       ss = [] ∨ (∃ x, x ∈ ss ∧ x ∉ demo_stages) →
       ∃ e, Metrics_init 30 ss b = Raise e).
Proof.
  intros Hclaim. destruct (Hclaim ["X"%string] 0) as [e He].
  - right. exists "X"%string. split; [apply list_elem_of_here|].
    unfold demo_stages. intros Hin.
    repeat (apply elem_of_cons in Hin as [Hin|Hin]; [discriminate|]).
    by apply elem_of_nil in Hin.
  - vm_compute in He. discriminate.
Qed.

(** C3. [stageShifts] is the number of indexes [i] of [0..n-2] with
    [s[i] ≠ s[i+1]], and [awakenings] the number of those with
    [s[i] ≠ W] and [s[i+1] = W]; both are one more when the subject has
    slept and the last epoch is a sleep stage. *)
Theorem transition_counts (E : Z) (stages ss : list string) (b : Z) :
  ss ≠ [] →
  ∃ m r,
    Metrics_init E ss b = Ok m ∧ report E stages m = Ok r ∧
    (has_slept m = true ↔ some_sleep ss) ∧
    (is_last_stage_sleep m = true ↔ last_is_sleep ss) ∧
    stageShifts r
    = count_pairs is_shift ss
      + (if (has_slept m && is_last_stage_sleep m)%bool then 1 else 0) ∧
    awakenings r
    = count_pairs is_awakening ss
      + (if (has_slept m && is_last_stage_sleep m)%bool then 1 else 0).
Proof.
  intros Hne. destruct (decide (some_sleep ss)) as [Hs|Hs].
  - destruct (run_some_sleep E stages ss b Hs)
      as (j & i & x & m & r & Hj & Hi & Hx & Hlast & Hinit & Hrep & Hm & Hr).
    exists m, r. do 2 (split; [done|]).
    destruct (flags_spec E ss b m Hne Hinit) as [Hhs Hils].
    do 2 (split; [done|]). by subst m r.
  - destruct (run_all_wake E stages ss b Hne Hs)
      as (m & r & Hinit & Hrep & Hm & Hr).
    exists m, r. do 2 (split; [done|]).
    destruct (flags_spec E ss b m Hne Hinit) as [Hhs Hils].
    do 2 (split; [done|]). subst m r. simpl. by rewrite !Z.add_0_r.
Qed.

Lemma transition_counts_witness :
  demo_night ≠ [] ∧
  ∃ m r,
    Metrics_init 30 demo_night 0 = Ok m ∧ report 30 demo_stages m = Ok r ∧
    (has_slept m = true ↔ some_sleep demo_night) ∧
    (is_last_stage_sleep m = true ↔ last_is_sleep demo_night) ∧
    stageShifts r
    = count_pairs is_shift demo_night
      + (if (has_slept m && is_last_stage_sleep m)%bool then 1 else 0) ∧
    awakenings r
    = count_pairs is_awakening demo_night
      + (if (has_slept m && is_last_stage_sleep m)%bool then 1 else 0).
Proof.
  split; [done|]. apply (transition_counts 30 demo_stages demo_night 0). done.
Defined.

(** C4. On a non-empty sequence of wake epochs only, [has_slept] is false,
    the onsets, the offset and the latencies are [None], the sleep time,
    the WASO and the wake after sleep offset are zero, and so is the sleep
    efficiency. *)
Theorem all_wake_report (E : Z) (stages ss : list string) (b : Z) :
  ss ≠ [] → (∀ x, x ∈ ss → x = W_name) →
  ∃ m r,
    Metrics_init E ss b = Ok m ∧ report E stages m = Ok r ∧
    has_slept m = false ∧
    sleepOnset r = None ∧ remOnset r = None ∧ sleepOffset r = None ∧
    sleepLatency r = None ∧ remLatency r = None ∧
    sleepTime r = 0 ∧ WASO r = 0 ∧ wakeAfterSleepOffset r = 0 ∧
    sleepEfficiency r = 0%Qc.
Proof.
  intros Hne Hall.
  assert (¬ some_sleep ss) as Hs.
  { intros (x & Hx & Hxs)%list.Exists_exists. by apply Hxs, Hall. }
  destruct (run_all_wake E stages ss b Hne Hs)
    as (m & r & Hinit & Hrep & Hm & Hr).
  exists m, r. do 2 (split; [done|]). by subst m r.
Qed.

Lemma all_wake_report_witness :
  ["W"; "W"; "W"]%string ≠ [] ∧
  (∀ x, x ∈ ["W"; "W"; "W"]%string → x = W_name) ∧
  ∃ m r,
    Metrics_init 30 ["W"; "W"; "W"]%string 7 = Ok m ∧
    report 30 demo_stages m = Ok r ∧
    has_slept m = false ∧
    sleepOnset r = None ∧ remOnset r = None ∧ sleepOffset r = None ∧
    sleepLatency r = None ∧ remLatency r = None ∧
    sleepTime r = 0 ∧ WASO r = 0 ∧ wakeAfterSleepOffset r = 0 ∧
    sleepEfficiency r = 0%Qc.
Proof.
  assert (∀ x, x ∈ ["W"; "W"; "W"]%string → x = W_name) as Hall.
  { intros x Hx.
    repeat (apply elem_of_cons in Hx as [->|Hx]; [done|]).
    by apply elem_of_nil in Hx. }
  split; [done|]. split; [exact Hall|].
  apply (all_wake_report 30 demo_stages ["W"; "W"; "W"]%string 7); done.
Defined.

(** C5, as the code has it.  When [has_slept] holds on a non-empty
    sequence, the array of sleep indexes is not empty, so the fallback of
    [_initialize_sleep_offset] on an empty array is not taken: the sleep
    offset is the [np.int64] sum of the last sleep index plus one, times the
    epoch duration, and of the bedtime, which is their sum when the bedtime
    and the sum fit [np.int64]. *)
Theorem sleep_offset_from_last_index (E : Z) (stages ss : list string) (b : Z) :
  ss ≠ [] →
  ∃ m r,
    Metrics_init E ss b = Ok m ∧ report E stages m = Ok r ∧
    (has_slept m = true →
     (1 ≤ length (sleep_indexes m))%nat ∧
     ∃ i, list.last (sleep_indexes m) = Some i ∧
          last_index is_sleep ss i ∧
          _sleep_offset m = Some (plus_bedtime b ((Z.of_nat i + 1) * E)) ∧
          sleepOffset r
          = Some (int_of_int64 (plus_bedtime b ((Z.of_nat i + 1) * E))) ∧
          (in_int64 b → in_int64 ((Z.of_nat i + 1) * E + b) →
           _sleep_offset m = Some (NpInt64 ((Z.of_nat i + 1) * E + b)) ∧
           sleepOffset r = Some (PyInt ((Z.of_nat i + 1) * E + b)))).
Proof.
  intros Hne. destruct (decide (some_sleep ss)) as [Hs|Hs].
  - destruct (run_some_sleep E stages ss b Hs)
      as (j & i & x & m & r & Hj & Hi & Hx & Hlast & Hinit & Hrep & Hm & Hr).
    exists m, r. do 2 (split; [done|]). subst m r. simpl. intros _. split.
    + destruct (np_where (np_ne ss W_name)); [done|simpl; lia].
    + exists i. do 4 (split; [done|]). intros Hb Hsum.
      by rewrite plus_bedtime_fits.
  - destruct (run_all_wake E stages ss b Hne Hs)
      as (m & r & Hinit & Hrep & Hm & Hr).
    exists m, r. do 2 (split; [done|]). by subst m r.
Qed.

Lemma sleep_offset_from_last_index_witness :
  demo_night ≠ [] ∧
  ∃ m r,
    Metrics_init 30 demo_night 0 = Ok m ∧ report 30 demo_stages m = Ok r ∧
    (has_slept m = true →
     (1 ≤ length (sleep_indexes m))%nat ∧
     ∃ i, list.last (sleep_indexes m) = Some i ∧
          last_index is_sleep demo_night i ∧
          _sleep_offset m = Some (plus_bedtime 0 ((Z.of_nat i + 1) * 30)) ∧
          sleepOffset r
          = Some (int_of_int64 (plus_bedtime 0 ((Z.of_nat i + 1) * 30))) ∧
          (in_int64 0 → in_int64 ((Z.of_nat i + 1) * 30 + 0) →
           _sleep_offset m = Some (NpInt64 ((Z.of_nat i + 1) * 30 + 0)) ∧
           sleepOffset r = Some (PyInt ((Z.of_nat i + 1) * 30 + 0)))).
Proof.
  split; [done|].
  apply (sleep_offset_from_last_index 30 demo_stages demo_night 0). done.
Defined.

(** C5, counterexample: on a single sleep epoch with the bedtime
    [2^63 - 1], the sum of one epoch and the bedtime does not fit
    [np.int64]; the reported [sleepOffset] is the wrapped value. *)
Lemma sleep_offset_wraps_around :
  ∃ m r,
    Metrics_init 30 ["N2"%string] (2 ^ 63 - 1) = Ok m ∧
    report 30 demo_stages m = Ok r ∧
    has_slept m = true ∧
    list.last (sleep_indexes m) = Some 0%nat ∧
    sleepOffset r = Some (PyInt (-9223372036854775779)) ∧
    sleepOffset r ≠ Some (PyInt ((0 + 1) * 30 + (2 ^ 63 - 1))).
Proof.
  eexists _, _. split; [vm_compute; reflexivity|].
  split; [vm_compute; reflexivity|]. do 3 (split; [reflexivity|]).
  vm_compute. discriminate.
Qed.



(** C8. The awakenings never exceed the stage shifts: an awakening is a
    stage shift, and the increment at the end of the recording is added to
    both. *)
Theorem awakenings_le_stage_shifts (E : Z) (stages ss : list string) (b : Z) :
  ss ≠ [] →
  ∃ m r,
    Metrics_init E ss b = Ok m ∧ report E stages m = Ok r ∧
    awakenings r ≤ stageShifts r.
Proof.
  intros Hne.
  assert (count_pairs is_awakening ss ≤ count_pairs is_shift ss) as Hle.
  { apply count_pairs_mono. intros a c [Ha ->]. exact Ha. }
  destruct (decide (some_sleep ss)) as [Hs|Hs].
  - destruct (run_some_sleep E stages ss b Hs)
      as (j & i & x & m & r & _ & _ & _ & _ & Hinit & Hrep & Hm & Hr).
    exists m, r. do 2 (split; [done|]). subst m r. simpl. lia.
  - destruct (run_all_wake E stages ss b Hne Hs)
      as (m & r & Hinit & Hrep & Hm & Hr).
    exists m, r. do 2 (split; [done|]). by subst m r.
Qed.

Lemma awakenings_le_stage_shifts_witness :
  demo_night ≠ [] ∧
  ∃ m r,
    Metrics_init 30 demo_night 0 = Ok m ∧ report 30 demo_stages m = Ok r ∧
    awakenings r ≤ stageShifts r.
Proof.
  split; [done|].
  apply (awakenings_le_stage_shifts 30 demo_stages demo_night 0). done.
Defined.

(** C9. With a non-negative epoch duration, a reported [remLatency] that is
    not [None] is non-negative and a multiple of the epoch duration: the
    first REM epoch is not before the first sleep epoch. *)
Theorem rem_latency_nonneg_multiple (E : Z) (stages ss : list string) (b : Z) :
  ss ≠ [] → 0 ≤ E →
  ∃ m r,
    Metrics_init E ss b = Ok m ∧ report E stages m = Ok r ∧
    ∀ v, remLatency r = Some v → 0 ≤ v ∧ ∃ k, 0 ≤ k ∧ v = k * E.
Proof.
  intros Hne HE. destruct (decide (some_sleep ss)) as [Hs|Hs].
  - destruct (run_some_sleep E stages ss b Hs)
      as (j & i & x & m & r & Hj & _ & _ & _ & Hinit & Hrep & Hm & Hr).
    exists m, r. do 2 (split; [done|]). subst m r. simpl.
    unfold rem_latency_from. rewrite np_eq_mask.
    destruct (np_where (mask_of is_rem ss)) as [|i0 rest] eqn:Hw; [done|].
    intros v [= <-].
    apply (np_where_mask_head is_rem) in Hw.
    pose proof (first_rem_after_first_sleep ss i0 j Hw Hj) as Hle.
    split; [nia|]. exists (Z.of_nat i0 - Z.of_nat j). split; lia.
  - destruct (run_all_wake E stages ss b Hne Hs)
      as (m & r & Hinit & Hrep & Hm & Hr).
    exists m, r. do 2 (split; [done|]). by subst m r.
Qed.

Lemma rem_latency_nonneg_multiple_witness :
  demo_night ≠ [] ∧ 0 ≤ 30 ∧
  ∃ m r,
    Metrics_init 30 demo_night 0 = Ok m ∧ report 30 demo_stages m = Ok r ∧
    ∀ v, remLatency r = Some v → 0 ≤ v ∧ ∃ k, 0 ≤ k ∧ v = k * 30.
Proof.
  split; [done|]. split; [lia|].
  apply (rem_latency_nonneg_multiple 30 demo_stages demo_night 0); [done|lia].
Defined.

(** C10. There is at least one awakening exactly when the subject has
    slept: when the last epoch is a sleep stage the end of the recording
    counts for one, and otherwise the epoch after the last sleep index is
    wake; without sleep there is no awakening. *)
Theorem awakenings_iff_has_slept (E : Z) (stages ss : list string) (b : Z) :
  ss ≠ [] →
  ∃ m r,
    Metrics_init E ss b = Ok m ∧ report E stages m = Ok r ∧
    (1 ≤ awakenings r ↔ has_slept m = true) ∧
    (has_slept m = true → is_last_stage_sleep m = true →
     awakenings r = count_pairs is_awakening ss + 1) ∧
    (has_slept m = true → is_last_stage_sleep m = false →
     ∃ i, last_index is_sleep ss i ∧ pair_at is_awakening ss i ∧
          awakenings r = count_pairs is_awakening ss) ∧
    (has_slept m = false → awakenings r = 0).
Proof.
  intros Hne. destruct (decide (some_sleep ss)) as [Hs|Hs].
  - destruct (run_some_sleep E stages ss b Hs)
      as (j & i & x & m & r & Hj & Hi & Hx & _ & Hinit & Hrep & Hm & Hr).
    exists m, r. do 2 (split; [done|]). subst m r. simpl.
    pose proof (count_pairs_nonneg is_awakening ss) as Hnn.
    destruct (bool_decide (x ≠ W_name)) eqn:Hxw.
    + split; [split; [done|lia]|]. split; [done|].
      split; [by intros _ [=]|by intros [=]].
    + apply bool_decide_eq_false in Hxw.
      assert (x = W_name) as -> by (by destruct (decide (x = W_name))).
      pose proof (awakening_after_last_sleep ss i Hi Hx) as Hpair.
      pose proof (count_pairs_pos is_awakening ss i Hpair) as Hpos.
      split; [split; [done|lia]|]. split; [by intros _ [=]|].
      split; [|by intros [=]]. intros _ _. exists i. by rewrite Z.add_0_r.
  - destruct (run_all_wake E stages ss b Hne Hs)
      as (m & r & Hinit & Hrep & Hm & Hr).
    exists m, r. do 2 (split; [done|]). subst m r. simpl.
    rewrite (no_awakening_without_sleep ss Hs).
    split; [split; [lia|done]|]. split; [by intros [=]|].
    split; [by intros [=]|done].
Qed.

Lemma awakenings_iff_has_slept_witness :
  demo_night ≠ [] ∧
  ∃ m r,
    Metrics_init 30 demo_night 0 = Ok m ∧ report 30 demo_stages m = Ok r ∧
    (1 ≤ awakenings r ↔ has_slept m = true) ∧
    (has_slept m = true → is_last_stage_sleep m = true →
     awakenings r = count_pairs is_awakening demo_night + 1) ∧
    (has_slept m = true → is_last_stage_sleep m = false →
     ∃ i, last_index is_sleep demo_night i ∧
          pair_at is_awakening demo_night i ∧
          awakenings r = count_pairs is_awakening demo_night) ∧
    (has_slept m = false → awakenings r = 0).
Proof.
  split; [done|].
  apply (awakenings_iff_has_slept 30 demo_stages demo_night 0). done.
Defined.

(** C7. When every label of a non-empty sequence is one of the stage names
    (whose report keys are distinct), the stage times of the report add up
    to the number of epochs times the epoch duration. *)
Theorem stage_times_sum (E : Z) (stages ss : list string) (b : Z) :
  ss ≠ [] →
  NoDup ((λ s, upper s +:+ "Time")%string <$> stages) →
  (∀ x, x ∈ ss → x ∈ stages) →
  ∃ m r,
    Metrics_init E ss b = Ok m ∧ report E stages m = Ok r ∧
    py_sum (dict_values (stageTimes r)) = Z.of_nat (length ss) * E.
Proof.
  intros Hne Hnd Hin. destruct (decide (some_sleep ss)) as [Hs|Hs].
  - destruct (run_some_sleep E stages ss b Hs)
      as (j & i & x & m & r & _ & _ & _ & _ & Hinit & Hrep & Hm & Hr).
    exists m, r. do 2 (split; [done|]). rewrite Hr. cbn [stageTimes].
    rewrite sum_time_passed_in_stage; [by rewrite Hm|done|by rewrite Hm].
  - destruct (run_all_wake E stages ss b Hne Hs)
      as (m & r & Hinit & Hrep & Hm & Hr).
    exists m, r. do 2 (split; [done|]). rewrite Hr. cbn [stageTimes].
    rewrite sum_time_passed_in_stage; [by rewrite Hm|done|by rewrite Hm].
Qed.

Lemma stage_times_sum_witness :
  demo_night ≠ [] ∧
  NoDup ((λ s, upper s +:+ "Time")%string <$> demo_stages) ∧
  (∀ x, x ∈ demo_night → x ∈ demo_stages) ∧
  ∃ m r,
    Metrics_init 30 demo_night 0 = Ok m ∧ report 30 demo_stages m = Ok r ∧
    py_sum (dict_values (stageTimes r)) = Z.of_nat (length demo_night) * 30.
Proof.
  assert (NoDup ((λ s, upper s +:+ "Time")%string <$> demo_stages)) as Hnd.
  { apply (bool_decide_unpack _). vm_compute. exact I. }
  assert (∀ x, x ∈ demo_night → x ∈ demo_stages) as Hin.
  { apply list.Forall_forall. apply (bool_decide_unpack _). vm_compute.
    exact I. }
  split; [done|]. split; [exact Hnd|]. split; [exact Hin|].
  apply (stage_times_sum 30 demo_stages demo_night 0); done.
Defined.

(** * The scenarios of the specification *)

(** Epochs of thirty seconds, bedtime [0], [W W N2 N2 REM N2 W]. *)
Example demo_night_report :
  ∃ r, analyze 30 demo_stages demo_night 0 = Ok r ∧
       sleepLatency r = Some 60 ∧ sleepOnset r = Some (PyInt 60) ∧
       remLatency r = Some 60 ∧ remOnset r = Some (PyInt 60) ∧
       sleepOffset r = Some (PyInt 180) ∧ sleepTime r = 120 ∧
       efficientSleepTime r = 120 ∧ WASO r = 0 ∧
       wakeAfterSleepOffset r = 30 ∧
       stageShifts r = 4 ∧ awakenings r = 1.
Proof.
  eexists. split; [vm_compute; reflexivity|].
  repeat split; reflexivity.
Qed.

(** A single epoch of sleep. *)
Example single_sleep_epoch_report :
  ∃ r, analyze 30 demo_stages ["N2"%string] 0 = Ok r ∧
       sleepLatency r = Some 0 ∧ sleepOffset r = Some (PyInt 30) ∧
       stageShifts r = 1 ∧ awakenings r = 1 ∧
       wakeAfterSleepOffset r = 0.
Proof.
  eexists. split; [vm_compute; reflexivity|].
  repeat split; reflexivity.
Qed.

(** A single epoch of sleep with the bedtime [2^63], which only fits
    [np.uint64]: the sums are doubles, and so are their differences. *)
Example single_sleep_epoch_float_bedtime :
  ∃ r, analyze 30 demo_stages ["N2"%string] (2 ^ 63) = Ok r ∧
       sleepOffset r = Some (NpFloat64 (2 ^ 63)) ∧
       sleepOnset r = Some (NpFloat64 (2 ^ 63)) ∧
       sleepTime r = NpFloat64 0 ∧ WASO r = NpFloat64 (-30).
Proof.
  eexists. split; [vm_compute; reflexivity|].
  repeat split; reflexivity.
Qed.

(** The same with the bedtime [2^64], beyond [np.uint64]: exact Python
    integers. *)
Example single_sleep_epoch_object_bedtime :
  ∃ r, analyze 30 demo_stages ["N2"%string] (2 ^ 64) = Ok r ∧
       sleepOffset r = Some (PyInt (2 ^ 64 + 30)) ∧
       sleepOnset r = Some (PyInt (2 ^ 64)) ∧
       sleepTime r = 30 ∧ WASO r = 0.
Proof.
  eexists. split; [vm_compute; reflexivity|].
  repeat split; reflexivity.
Qed.

(** [4 / 7] is the double [0x1.2492492492492p-1]. *)
Example four_sevenths :
  py_truediv 4 7 = Ok (Q2Qc (Qmake 2573485501354569 (Z.to_pos (2 ^ 52)))).
Proof. vm_compute. reflexivity. Qed.

(** The empty sequence is caught by the read of the last epoch. *)
Example empty_sequence_raises :
  analyze 30 demo_stages [] 0 = Raise IndexError.
Proof. reflexivity. Qed.

(** * Further lemmas on masks and indexes *)

Section sleep_indexes.
Context (P : string → Prop) `{!∀ x, Decision (P x)}.
Implicit Types (ss : list string) (i j : nat).

Lemma np_where_from_length_filter ss i :
  length (np_where_from i (mask_of P ss)) = length (filter P ss).
Proof.
  revert i. induction ss as [|x ss IH]; intros i; [done|].
  change (mask_of P (x :: ss)) with (bool_decide (P x) :: mask_of P ss).
  cbn [np_where_from]. rewrite length_app, IH, filter_cons.
  destruct (decide (P x)) as [HP|HP].
  - by rewrite bool_decide_eq_true_2.
  - by rewrite bool_decide_eq_false_2.
Qed.

Lemma np_where_from_ge i mask j : j ∈ np_where_from i mask → (i ≤ j)%nat.
Proof. intros (k & -> & _)%elem_of_np_where_from. lia. Qed.

Lemma np_where_from_sorted i mask : StronglySorted lt (np_where_from i mask).
Proof.
  revert i. induction mask as [|b m IH]; intros i; simpl; [constructor|].
  destruct b; simpl; [|by apply IH].
  constructor; [by apply IH|].
  apply list.Forall_forall. intros j Hj%np_where_from_ge. lia.
Qed.

Lemma filter_nil_Forall {A} (Q : A → Prop) `{!∀ x, Decision (Q x)}
    (l : list A) :
  (∀ x, x ∈ l → ¬ Q x) → filter Q l = [].
Proof.
  induction l as [|x l IH]; intros Hall; [done|].
  rewrite filter_cons, decide_False by (apply Hall; left).
  apply IH. intros y Hy. apply Hall. by right.
Qed.

Lemma length_filter_complement {A} (Q : A → Prop) `{!∀ x, Decision (Q x)}
    (l : list A) :
  (length (filter Q l) + length (filter (λ x, ¬ Q x) l))%nat = length l.
Proof. by rewrite <-length_app, filter_app_complement. Qed.

Lemma first_index_le_last_index ss j i :
  first_index P ss j → last_index P ss i → (j ≤ i < length ss)%nat.
Proof.
  intros [(x & Hx & HPx) _] [(y & Hy & HPy) Hafter]. split.
  - destruct (decide (j ≤ i)%nat) as [|Hlt]; [done|].
    destruct (Hafter j x); [lia|done|done].
  - by eapply lookup_lt_Some.
Qed.

(** The elements that satisfy [P] all lie between the first and the last
    index. *)
Lemma filter_between ss j i :
  first_index P ss j → last_index P ss i →
  filter P ss = filter P (take (S i - j) (drop j ss)).
Proof.
  intros Hj Hi.
  destruct (first_index_le_last_index ss j i Hj Hi) as [Hji Hin].
  destruct Hj as [_ Hbefore]. destruct Hi as [_ Hafter].
  rewrite <-(take_drop j ss) at 1.
  rewrite <-(take_drop (S i - j) (drop j ss)) at 1.
  rewrite !list.filter_app.
  rewrite (filter_nil_Forall P (take j ss)).
  - rewrite (filter_nil_Forall P (drop (S i - j) (drop j ss)));
      [by rewrite app_nil_r|].
    intros x [k Hk]%list_elem_of_lookup. rewrite !lookup_drop in Hk.
    apply (Hafter (j + (S i - j + k))%nat x); [lia|done].
  - intros x [k Hk]%list_elem_of_lookup.
    apply lookup_take_Some in Hk as [Hk Hlt]. by apply (Hbefore k x).
Qed.

End sleep_indexes.

(** * Further properties of the report *)

(** When the bedtime and the end of the recording fit [np.int64], so do
    the onset, the offset, the sleep time and the WASO. *)
Lemma sleep_values_fit (E b : Z) (n i j k : nat) :
  fits_int64 E n b → (j ≤ i < n)%nat → (k ≤ S i - j)%nat →
  int_of_int64 (plus_bedtime b (Z.of_nat j * E)) = PyInt (Z.of_nat j * E + b) ∧
  int_of_int64 (plus_bedtime b ((Z.of_nat i + 1) * E))
  = PyInt ((Z.of_nat i + 1) * E + b) ∧
  int_of_int64
    (num_binop Z.sub (plus_bedtime b ((Z.of_nat i + 1) * E))
               (plus_bedtime b (Z.of_nat j * E)))
  = PyInt ((Z.of_nat i - Z.of_nat j + 1) * E) ∧
  int_of_int64
    (num_binop Z.sub
       (num_binop Z.sub (plus_bedtime b ((Z.of_nat i + 1) * E))
                  (plus_bedtime b (Z.of_nat j * E)))
       (PyInt (Z.of_nat k * E)))
  = PyInt ((Z.of_nat i - Z.of_nat j + 1 - Z.of_nat k) * E).
Proof.
  intros (HE & Hb & Hsum & Hn) Hij Hk.
  assert (in_int64 b) as Hb' by (unfold in_int64; nia).
  assert (∀ c : nat, (c ≤ n)%nat → 0 ≤ Z.of_nat c * E ≤ Z.of_nat n * E)
    as Hc by (intros c Hcn; nia).
  pose proof (Hc j ltac:(lia)) as Hj.
  pose proof (Hc (S i) ltac:(lia)) as Hi.
  pose proof (Hc k ltac:(lia)) as Hk'.
  pose proof (Hc (S i - j)%nat ltac:(lia)) as Hd.
  pose proof (Hc (S i - j - k)%nat ltac:(lia)) as Hw.
  replace (Z.of_nat (S i)) with (Z.of_nat i + 1) in Hi by lia.
  replace (Z.of_nat (S i - j)) with (Z.of_nat i - Z.of_nat j + 1) in Hd by lia.
  replace (Z.of_nat (S i - j - k))
    with (Z.of_nat i - Z.of_nat j + 1 - Z.of_nat k) in Hw by lia.
  rewrite !plus_bedtime_fits by (done || unfold in_int64; lia).
  rewrite <-!plus_bedtime_fits by (done || unfold in_int64; lia).
  rewrite sub_plus_bedtime by (done || unfold in_int64; lia).
  rewrite sub_int64_int by (unfold in_int64; lia).
  rewrite !plus_bedtime_fits by (done || unfold in_int64; lia).
  simpl. repeat split; f_equal; lia.
Qed.

(** The sleep indexes lie between the first and the last one. *)
Lemma length_sleep_indexes_between (ss : list string) (j i : nat) :
  first_index is_sleep ss j → last_index is_sleep ss i →
  (j ≤ i < length ss)%nat ∧
  length (np_where (np_ne ss W_name))
  = length (filter is_sleep (take (S i - j) (drop j ss))) ∧
  (length (np_where (np_ne ss W_name)) ≤ S i - j)%nat.
Proof.
  intros Hj Hi.
  destruct (first_index_le_last_index is_sleep ss j i Hj Hi) as [Hji Hin].
  split; [done|].
  rewrite np_ne_mask. unfold np_where.
  rewrite (np_where_from_length_filter is_sleep),
    (filter_between is_sleep ss j i Hj Hi).
  split; [done|].
  pose proof (length_filter is_sleep (take (S i - j) (drop j ss))) as Hle.
  rewrite length_take, length_drop in Hle. lia.
Qed.

(** X1. When some epoch is not wake and the bedtime and the end of the
    recording fit [np.int64], the sleep latency is the first sleep index
    times the epoch duration, the sleep onset is the latency plus the
    bedtime, and the sleep time spans the epochs from the first to the last
    sleep index, whatever the bedtime. *)
Theorem sleep_period (E : Z) (stages ss : list string) (b : Z) :
  some_sleep ss → fits_int64 E (length ss) b →
  ∃ m r j i,
    Metrics_init E ss b = Ok m ∧ report E stages m = Ok r ∧
    first_index is_sleep ss j ∧ last_index is_sleep ss i ∧
    sleepLatency r = Some (Z.of_nat j * E) ∧
    sleepOnset r = Some (PyInt (Z.of_nat j * E + b)) ∧
    sleepTime r = PyInt ((Z.of_nat i - Z.of_nat j + 1) * E).
Proof.
  intros Hs Hfit.
  destruct (run_some_sleep E stages ss b Hs)
    as (j & i & x & m & r & Hj & Hi & _ & _ & Hinit & Hrep & Hm & Hr).
  destruct (length_sleep_indexes_between ss j i Hj Hi) as (Hji & _ & Hk).
  destruct (sleep_values_fit E b (length ss) i j _ Hfit Hji Hk)
    as (Hon & _ & Htime & _).
  exists m, r, j, i. do 4 (split; [done|]). subst r. simpl.
  split; [done|]. by rewrite Hon, Htime.
Qed.

Lemma sleep_period_witness :
  some_sleep demo_night ∧ fits_int64 30 (length demo_night) 1602898320 ∧
  ∃ m r j i,
    Metrics_init 30 demo_night 1602898320 = Ok m ∧
    report 30 demo_stages m = Ok r ∧
    first_index is_sleep demo_night j ∧ last_index is_sleep demo_night i ∧
    sleepLatency r = Some (Z.of_nat j * 30) ∧
    sleepOnset r = Some (PyInt (Z.of_nat j * 30 + 1602898320)) ∧
    sleepTime r = PyInt ((Z.of_nat i - Z.of_nat j + 1) * 30).
Proof.
  assert (some_sleep demo_night) as Hs.
  { apply (bool_decide_unpack _). vm_compute. exact I. }
  assert (fits_int64 30 (length demo_night) 1602898320) as Hfit.
  { apply (bool_decide_unpack _). vm_compute. exact I. }
  split; [exact Hs|]. split; [exact Hfit|].
  apply (sleep_period 30 demo_stages demo_night 1602898320 Hs Hfit).
Defined.

(** X2. When some epoch is not wake and the bedtime and the end of the
    recording fit [np.int64], the sleep latency, the sleep time and the
    wake after sleep offset add up to the duration of the recording. *)
Theorem recording_partition (E : Z) (stages ss : list string) (b : Z) :
  some_sleep ss → fits_int64 E (length ss) b →
  ∃ m r sl st,
    Metrics_init E ss b = Ok m ∧ report E stages m = Ok r ∧
    sleepLatency r = Some sl ∧ sleepTime r = PyInt st ∧
    sl + st + wakeAfterSleepOffset r = Z.of_nat (length ss) * E.
Proof.
  intros Hs Hfit.
  destruct (run_some_sleep E stages ss b Hs)
    as (j & i & x & m & r & Hj & Hi & Hx & _ & Hinit & Hrep & Hm & Hr).
  destruct (length_sleep_indexes_between ss j i Hj Hi) as (Hji & _ & Hk).
  destruct (sleep_values_fit E b (length ss) i j _ Hfit Hji Hk)
    as (_ & _ & Htime & _).
  exists m, r, (Z.of_nat j * E), ((Z.of_nat i - Z.of_nat j + 1) * E).
  do 2 (split; [done|]). subst r. simpl.
  split; [done|]. split; [exact Htime|].
  destruct (bool_decide (x ≠ W_name)) eqn:Hxw; [|lia].
  apply bool_decide_eq_true in Hxw.
  assert (i = pred (length ss)) as ->.
  { destruct Hi as [_ Hafter]. rewrite last_lookup in Hx.
    destruct (decide (i = pred (length ss))) as [|Hne]; [done|].
    destruct (Hafter (pred (length ss)) x); [lia|done|done]. }
  assert (Z.of_nat (pred (length ss)) + 1 = Z.of_nat (length ss)) as Hn.
  { pose proof (some_sleep_nonempty ss Hs). destruct ss; [done|simpl; lia]. }
  lia.
Qed.

Lemma recording_partition_witness :
  some_sleep demo_night ∧ fits_int64 30 (length demo_night) 1602898320 ∧
  ∃ m r sl st,
    Metrics_init 30 demo_night 1602898320 = Ok m ∧
    report 30 demo_stages m = Ok r ∧
    sleepLatency r = Some sl ∧ sleepTime r = PyInt st ∧
    sl + st + wakeAfterSleepOffset r = Z.of_nat (length demo_night) * 30.
Proof.
  assert (some_sleep demo_night) as Hs.
  { apply (bool_decide_unpack _). vm_compute. exact I. }
  assert (fits_int64 30 (length demo_night) 1602898320) as Hfit.
  { apply (bool_decide_unpack _). vm_compute. exact I. }
  split; [exact Hs|]. split; [exact Hfit|].
  apply (recording_partition 30 demo_stages demo_night 1602898320 Hs Hfit).
Defined.

(** X3. When some epoch is not wake and the bedtime and the end of the
    recording fit [np.int64], the WASO is the number of wake epochs between
    the first and the last sleep index times the epoch duration; it lies
    between zero and the sleep time. *)
Theorem waso_counts_wake_between (E : Z) (stages ss : list string) (b : Z) :
  some_sleep ss → fits_int64 E (length ss) b →
  ∃ m r j i st,
    Metrics_init E ss b = Ok m ∧ report E stages m = Ok r ∧
    first_index is_sleep ss j ∧ last_index is_sleep ss i ∧
    WASO r
    = PyInt (Z.of_nat (length (filter (λ x, ¬ is_sleep x)
                                      (take (S i - j) (drop j ss)))) * E) ∧
    sleepTime r = PyInt st ∧
    0 ≤ Z.of_nat (length (filter (λ x, ¬ is_sleep x)
                                 (take (S i - j) (drop j ss)))) * E ≤ st.
Proof.
  intros Hs Hfit.
  destruct (run_some_sleep E stages ss b Hs)
    as (j & i & x & m & r & Hj & Hi & _ & _ & Hinit & Hrep & Hm & Hr).
  destruct (length_sleep_indexes_between ss j i Hj Hi) as (Hji & Hlen & Hk).
  destruct (sleep_values_fit E b (length ss) i j _ Hfit Hji Hk)
    as (_ & _ & Htime & Hwaso).
  exists m, r, j, i, ((Z.of_nat i - Z.of_nat j + 1) * E).
  do 4 (split; [done|]). subst r. simpl. rewrite Hwaso, Htime, Hlen.
  pose proof (length_filter_complement is_sleep (take (S i - j) (drop j ss)))
    as Hsplit.
  rewrite length_take, length_drop in Hsplit.
  set (w := length (filter (λ x, ¬ is_sleep x) (take (S i - j) (drop j ss))))
    in *.
  set (k := length (filter is_sleep (take (S i - j) (drop j ss)))) in *.
  assert (Z.of_nat w = Z.of_nat i - Z.of_nat j + 1 - Z.of_nat k) as -> by lia.
  split; [done|]. split; [done|].
  destruct Hfit as (HE & _).
  assert (0 ≤ (Z.of_nat i - Z.of_nat j + 1 - Z.of_nat k) * E) by nia.
  assert (0 ≤ Z.of_nat k * E) by nia.
  lia.
Qed.

Lemma waso_counts_wake_between_witness :
  some_sleep demo_night ∧ fits_int64 30 (length demo_night) 1602898320 ∧
  ∃ m r j i st,
    Metrics_init 30 demo_night 1602898320 = Ok m ∧
    report 30 demo_stages m = Ok r ∧
    first_index is_sleep demo_night j ∧ last_index is_sleep demo_night i ∧
    WASO r
    = PyInt (Z.of_nat (length (filter (λ x, ¬ is_sleep x)
                                      (take (S i - j) (drop j demo_night))))
             * 30) ∧
    sleepTime r = PyInt st ∧
    0 ≤ Z.of_nat (length (filter (λ x, ¬ is_sleep x)
                                 (take (S i - j) (drop j demo_night)))) * 30
      ≤ st.
Proof.
  assert (some_sleep demo_night) as Hs.
  { apply (bool_decide_unpack _). vm_compute. exact I. }
  assert (fits_int64 30 (length demo_night) 1602898320) as Hfit.
  { apply (bool_decide_unpack _). vm_compute. exact I. }
  split; [exact Hs|]. split; [exact Hfit|].
  apply (waso_counts_wake_between 30 demo_stages demo_night 1602898320
           Hs Hfit).
Defined.

(** Rounding to the nearest multiple stays within half a unit, and within
    the bounds of the quotient. *)
Lemma round_half_even_near (a b : Z) :
  0 < b → 2 * Z.abs (round_half_even a b * b - a) ≤ b.
Proof.
  intros Hb. unfold round_half_even. cbv zeta.
  pose proof (Z.div_mod a b ltac:(lia)) as Hdiv.
  pose proof (Z.mod_pos_bound a b Hb) as Hmod.
  repeat case_decide; try destruct (Z.even _); nia.
Qed.

Lemma round_half_even_bounds (a b c : Z) :
  0 < b → 0 ≤ a ≤ c * b → 0 ≤ round_half_even a b ≤ c.
Proof.
  intros Hb Ha. unfold round_half_even. cbv zeta.
  pose proof (Z.div_mod a b ltac:(lia)) as Hdiv.
  pose proof (Z.mod_pos_bound a b Hb) as Hmod.
  assert (0 ≤ a / b) by (apply Z.div_pos; lia).
  assert (a / b ≤ c) by (apply Z.div_le_upper_bound; lia).
  assert (a / b = c → a mod b = 0) by nia.
  repeat case_decide; try destruct (Z.even _); lia.
Qed.

(** The double of a ratio of at most one has at least 52 fraction bits. *)
Lemma double_of_ratio_dyadic (a b : Z) :
  0 < a ≤ b →
  ∃ s, 52 ≤ s ∧
       double_of_ratio a b
       = Q2Qc (Qmake (round_half_even (a * 2 ^ s) b) (Z.to_pos (2 ^ s))).
Proof.
  intros Hab. unfold double_of_ratio. cbv zeta.
  assert (Z.log2 a ≤ Z.log2 b) as Hlog by (apply Z.log2_le_mono; lia).
  set (d := Z.log2 a - Z.log2 b).
  set (e := if decide _ then d else d - 1).
  assert (e ≤ 0) as He by (unfold e, d; case_decide; lia).
  set (s := 52 - Z.max e (-1022)).
  assert (52 ≤ s) as Hs by lia.
  exists s. split; [done|].
  rewrite (Z.max_r 0 s), (Z.max_l 0 (- s)) by lia.
  by rewrite Z.pow_0_r, !Z.mul_1_r.
Qed.

Lemma efficiency_of_spec (k n : Z) :
  0 ≤ k ≤ n → 0 < n →
  (0 ≤ efficiency_of k n)%Qc ∧ (efficiency_of k n ≤ 1)%Qc ∧
  (efficiency_of k n - Q2Qc (Qmake k (Z.to_pos n))
   ≤ Q2Qc (Qmake 1 (2 ^ 53)))%Qc ∧
  (Q2Qc (Qmake k (Z.to_pos n)) - efficiency_of k n
   ≤ Q2Qc (Qmake 1 (2 ^ 53)))%Qc.
Proof.
  intros Hk Hn. unfold efficiency_of. case_decide as Hk0.
  - subst k. repeat split; unfold Qcle, Qle; simpl; lia.
  - destruct (double_of_ratio_dyadic k n) as (s & Hs & ->); [lia|].
    set (m := round_half_even (k * 2 ^ s) n).
    assert (0 < 2 ^ s) as Hpow by (apply Z.pow_pos_nonneg; lia).
    assert (2 ^ 52 ≤ 2 ^ s) as Hpow' by (apply Z.pow_le_mono_r; lia).
    pose proof (round_half_even_near (k * 2 ^ s) n Hn) as Hnear.
    pose proof (round_half_even_bounds (k * 2 ^ s) n (2 ^ s) Hn) as Hbd.
    fold m in Hnear, Hbd.
    assert (0 ≤ m ≤ 2 ^ s) as Hm by (apply Hbd; nia).
    unfold Qcle, Qcminus, Qcplus, Qcopp. simpl.
    rewrite !Qred_correct.
    unfold Qle, Qplus, Qopp. simpl.
    rewrite ?Pos2Z.inj_mul, ?Z2Pos.id by lia.
    change (Z.pos (2 ^ 53)) with (2 * 2 ^ 52) in *.
    repeat split; try nia.
Qed.

(** X4. The sleep efficiency is the true division of the number of epochs
    that are not wake by the number of epochs: the double nearest to that
    ratio, between zero and one and within [2 ^ -53] of the ratio.  The
    efficient sleep time is that number of epochs times the epoch
    duration. *)
Theorem sleep_efficiency_ratio (E : Z) (stages ss : list string) (b : Z) :
  ss ≠ [] →
  ∃ m r,
    Metrics_init E ss b = Ok m ∧ report E stages m = Ok r ∧
    py_truediv (Z.of_nat (length (filter is_sleep ss))) (Z.of_nat (length ss))
    = Ok (sleepEfficiency r) ∧
    efficientSleepTime r = Z.of_nat (length (filter is_sleep ss)) * E ∧
    (0 ≤ sleepEfficiency r)%Qc ∧ (sleepEfficiency r ≤ 1)%Qc ∧
    (sleepEfficiency r
     - Q2Qc (Qmake (Z.of_nat (length (filter is_sleep ss)))
                   (Z.to_pos (Z.of_nat (length ss))))
     ≤ Q2Qc (Qmake 1 (2 ^ 53)))%Qc ∧
    (Q2Qc (Qmake (Z.of_nat (length (filter is_sleep ss)))
                 (Z.to_pos (Z.of_nat (length ss))))
     - sleepEfficiency r
     ≤ Q2Qc (Qmake 1 (2 ^ 53)))%Qc.
Proof.
  intros Hne.
  assert (0 < Z.of_nat (length ss)) as Hn by (destruct ss; [done|simpl; lia]).
  pose proof (length_filter is_sleep ss) as Hk.
  assert (0 ≤ Z.of_nat (length (filter is_sleep ss)) ≤ Z.of_nat (length ss))
    as Hkn by lia.
  pose proof (py_truediv_len _ _ Hkn Hn) as Hdiv.
  pose proof (efficiency_of_spec _ _ Hkn Hn) as Hspec.
  assert (length (np_where (np_ne ss W_name)) = length (filter is_sleep ss))
    as Hlen.
  { rewrite np_ne_mask. unfold np_where.
    by rewrite (np_where_from_length_filter is_sleep). }
  destruct (decide (some_sleep ss)) as [Hs|Hs].
  - destruct (run_some_sleep E stages ss b Hs)
      as (j & i & x & m & r & _ & _ & _ & _ & Hinit & Hrep & Hm & Hr).
    exists m, r. do 2 (split; [done|]). subst r. simpl. by rewrite Hlen.
  - destruct (run_all_wake E stages ss b Hne Hs)
      as (m & r & Hinit & Hrep & Hm & Hr).
    exists m, r. do 2 (split; [done|]). subst r. simpl.
    assert (filter is_sleep ss = []) as Hnil.
    { apply filter_nil_Forall. intros x Hx Hxs. apply Hs.
      apply list.Exists_exists. eauto. }
    rewrite Hnil in *. change (Z.of_nat (length (@nil string))) with 0 in *.
    split; [done|]. split; [lia|done].
Qed.

Lemma sleep_efficiency_ratio_witness :
  demo_night ≠ [] ∧
  ∃ m r,
    Metrics_init 30 demo_night 0 = Ok m ∧ report 30 demo_stages m = Ok r ∧
    py_truediv (Z.of_nat (length (filter is_sleep demo_night)))
               (Z.of_nat (length demo_night))
    = Ok (sleepEfficiency r) ∧
    efficientSleepTime r = Z.of_nat (length (filter is_sleep demo_night)) * 30 ∧
    (0 ≤ sleepEfficiency r)%Qc ∧ (sleepEfficiency r ≤ 1)%Qc ∧
    (sleepEfficiency r
     - Q2Qc (Qmake (Z.of_nat (length (filter is_sleep demo_night)))
                   (Z.to_pos (Z.of_nat (length demo_night))))
     ≤ Q2Qc (Qmake 1 (2 ^ 53)))%Qc ∧
    (Q2Qc (Qmake (Z.of_nat (length (filter is_sleep demo_night)))
                 (Z.to_pos (Z.of_nat (length demo_night))))
     - sleepEfficiency r
     ≤ Q2Qc (Qmake 1 (2 ^ 53)))%Qc.
Proof.
  split; [done|].
  apply (sleep_efficiency_ratio 30 demo_stages demo_night 0). done.
Defined.

(** With the bedtime and the end of the recording in [np.int64], a time
    within the recording plus the bedtime is exact. *)
Lemma plus_bedtime_in_recording (E b : Z) (n : nat) (v : Z) :
  fits_int64 E n b → 0 ≤ v ≤ Z.of_nat n * E →
  int_of_int64 (plus_bedtime b v) = PyInt (v + b).
Proof.
  intros (HE & Hb & Hsum & Hn) Hv.
  rewrite plus_bedtime_fits; [done|unfold in_int64; lia..].
Qed.

Lemma fits_int64_zero (E b : Z) (n : nat) :
  fits_int64 E n b → fits_int64 E n 0.
Proof. intros (HE & Hb & Hsum & Hn). unfold fits_int64. lia. Qed.

Lemma rem_latency_from_bounds (E : Z) (ss : list string) (j : nat) (v : Z) :
  0 ≤ E → first_index is_sleep ss j → rem_latency_from E ss j = Some v →
  0 ≤ v ≤ Z.of_nat (length ss) * E.
Proof.
  intros HE Hj. unfold rem_latency_from. rewrite np_eq_mask.
  destruct (np_where (mask_of is_rem ss)) as [|i rest] eqn:Hw; [done|].
  intros [= <-]. apply (np_where_mask_head is_rem) in Hw.
  pose proof (first_rem_after_first_sleep ss i j Hw Hj) as Hle.
  destruct Hw as [(x & Hx%lookup_lt_Some & _) _]. nia.
Qed.

(** X5. When the bedtime and the end of the recording fit [np.int64], the
    bedtime only shifts the sleep onset, the REM onset and the sleep
    offset: every other metric is the one of the same sequence with bedtime
    zero. *)
Theorem bedtime_shifts_onsets (E : Z) (stages ss : list string) (b : Z) :
  ss ≠ [] → fits_int64 E (length ss) b →
  ∃ m r m0 r0,
    Metrics_init E ss b = Ok m ∧ report E stages m = Ok r ∧
    Metrics_init E ss 0 = Ok m0 ∧ report E stages m0 = Ok r0 ∧
    sleepOnset r = (λ v, num_binop Z.add v (PyInt b)) <$> sleepOnset r0 ∧
    remOnset r = (λ v, num_binop Z.add v (PyInt b)) <$> remOnset r0 ∧
    sleepOffset r = (λ v, num_binop Z.add v (PyInt b)) <$> sleepOffset r0 ∧
    sleepLatency r = sleepLatency r0 ∧ remLatency r = remLatency r0 ∧
    awakenings r = awakenings r0 ∧ stageShifts r = stageShifts r0 ∧
    sleepTime r = sleepTime r0 ∧ WASO r = WASO r0 ∧
    sleepEfficiency r = sleepEfficiency r0 ∧
    efficientSleepTime r = efficientSleepTime r0 ∧
    wakeAfterSleepOffset r = wakeAfterSleepOffset r0 ∧
    stageTimes r = stageTimes r0.
Proof.
  intros Hne Hfit. pose proof (fits_int64_zero _ _ _ Hfit) as Hfit0.
  destruct (decide (some_sleep ss)) as [Hs|Hs].
  - destruct (run_some_sleep E stages ss b Hs)
      as (j & i & x & m & r & Hj & Hi & Hx & _ & Hinit & Hrep & Hm & Hr).
    destruct (run_some_sleep E stages ss 0 Hs)
      as (j0 & i0 & x0 & m0 & r0 & Hj0 & Hi0 & Hx0 & _ & Hinit0 & Hrep0
          & Hm0 & Hr0).
    exists m, r, m0, r0. do 4 (split; [done|]).
    assert (j0 = j) as -> by by eapply (first_index_unique is_sleep).
    assert (i0 = i) as -> by by eapply (last_index_unique is_sleep).
    assert (x0 = x) as -> by congruence.
    destruct (length_sleep_indexes_between ss j i Hj Hi) as (Hji & _ & Hk).
    destruct (sleep_values_fit E b (length ss) i j _ Hfit Hji Hk)
      as (Hon & Hoff & Htime & Hwaso).
    destruct (sleep_values_fit E 0 (length ss) i j _ Hfit0 Hji Hk)
      as (Hon0 & Hoff0 & Htime0 & Hwaso0).
    subst r r0 m m0.
    cbn [sleepOffset sleepLatency remLatency awakenings stageShifts sleepTime
         WASO sleepEfficiency efficientSleepTime wakeAfterSleepOffset
         sleepOnset remOnset stageTimes].
    rewrite Hon, Hoff, Htime, Hwaso, Hon0, Hoff0, Htime0, Hwaso0.
    cbn [fmap option_fmap option_map].
    split; [unfold num_binop; do 2 f_equal; lia|].
    split.
    { destruct (rem_latency_from E ss j) as [v|] eqn:Hrem; [|done].
      cbn [fmap option_fmap option_map].
      pose proof (rem_latency_from_bounds E ss j v (proj1 Hfit) Hj Hrem) as Hv.
      rewrite (plus_bedtime_in_recording E b (length ss)),
        (plus_bedtime_in_recording E 0 (length ss)) by done.
      unfold num_binop. do 2 f_equal. lia. }
    split; [unfold num_binop; do 2 f_equal; lia|]. done.
  - destruct (run_all_wake E stages ss b Hne Hs)
      as (m & r & Hinit & Hrep & Hm & Hr).
    destruct (run_all_wake E stages ss 0 Hne Hs)
      as (m0 & r0 & Hinit0 & Hrep0 & Hm0 & Hr0).
    exists m, r, m0, r0. do 4 (split; [done|]). by subst r r0 m m0.
Qed.

Lemma bedtime_shifts_onsets_witness :
  demo_night ≠ [] ∧ fits_int64 30 (length demo_night) 1000 ∧
  ∃ m r m0 r0,
    Metrics_init 30 demo_night 1000 = Ok m ∧ report 30 demo_stages m = Ok r ∧
    Metrics_init 30 demo_night 0 = Ok m0 ∧ report 30 demo_stages m0 = Ok r0 ∧
    sleepOnset r = (λ v, num_binop Z.add v (PyInt 1000)) <$> sleepOnset r0 ∧
    remOnset r = (λ v, num_binop Z.add v (PyInt 1000)) <$> remOnset r0 ∧
    sleepOffset r = (λ v, num_binop Z.add v (PyInt 1000)) <$> sleepOffset r0 ∧
    sleepLatency r = sleepLatency r0 ∧ remLatency r = remLatency r0 ∧
    awakenings r = awakenings r0 ∧ stageShifts r = stageShifts r0 ∧
    sleepTime r = sleepTime r0 ∧ WASO r = WASO r0 ∧
    sleepEfficiency r = sleepEfficiency r0 ∧
    efficientSleepTime r = efficientSleepTime r0 ∧
    wakeAfterSleepOffset r = wakeAfterSleepOffset r0 ∧
    stageTimes r = stageTimes r0.
Proof.
  assert (fits_int64 30 (length demo_night) 1000) as Hfit.
  { apply (bool_decide_unpack _). vm_compute. exact I. }
  split; [done|]. split; [exact Hfit|].
  apply (bedtime_shifts_onsets 30 demo_stages demo_night 1000); done.
Defined.

Section stage_time_lookup.
Context (f : string → string) (g : string → Z).
Implicit Types (stages : list string) (d : gmap string Z).

Lemma lookup_foldl_insert_fresh stages d (k : string) :
  k ∉ f <$> stages →
  foldl (λ d s, <[f s := g s]> d) d stages !! k = d !! k.
Proof.
  revert d. induction stages as [|a l IH]; intros d Hk; [done|].
  rewrite fmap_cons in Hk. apply not_elem_of_cons in Hk as [Hne Hnin].
  simpl. rewrite IH by done. by rewrite lookup_insert_ne.
Qed.

Lemma lookup_foldl_insert_elem stages d (s : string) :
  NoDup (f <$> stages) → s ∈ stages →
  foldl (λ d s, <[f s := g s]> d) d stages !! f s = Some (g s).
Proof.
  revert d. induction stages as [|a l IH]; intros d Hnd Hs;
    [by apply elem_of_nil in Hs|].
  rewrite fmap_cons in Hnd. apply list.NoDup_cons in Hnd as [Hnin Hnd].
  simpl. apply elem_of_cons in Hs as [->|Hs].
  - rewrite lookup_foldl_insert_fresh by done. apply lookup_insert_eq.
  - by apply IH.
Qed.

End stage_time_lookup.

(** Every epoch whose label is a stage name is counted for exactly one of
    the stage names, and the other epochs for none. *)
Lemma sum_counts_of_known_labels (stages ss : list string) :
  NoDup stages →
  py_sum ((λ s, Z.of_nat (length (filter (s =.) ss))) <$> stages)
  = Z.of_nat (length (filter (λ x, x ∈ stages) ss)).
Proof.
  intros Hnd. induction ss as [|x ss IH].
  - simpl. clear Hnd. induction stages as [|a l IHl]; [done|].
    by rewrite fmap_cons, py_sum_cons, IHl.
  - rewrite (list_fmap_ext _
               (λ s, (if decide (s = x) then 1 else 0)
                     + Z.of_nat (length (filter (s =.) ss)))).
    + rewrite py_sum_fmap_add, IH, filter_cons.
      destruct (decide (x ∈ stages)) as [Hin|Hin].
      * rewrite py_sum_indicator_present by done. simpl length. lia.
      * rewrite py_sum_indicator_absent by done. lia.
    + intros _ s _. rewrite filter_cons.
      destruct (decide (s = x)); simpl length; lia.
Qed.

Lemma time_passed_value (E : Z) (ss : list string) (s : string) :
  match Counter ss !! s with
  | Some _ => E * counter_get (Counter ss) s
  | None => 0
  end = E * Z.of_nat (length (filter (s =.) ss)).
Proof.
  rewrite <-counter_get_Counter. unfold counter_get.
  destruct (Counter ss !! s); simpl; lia.
Qed.

(** X6. With distinct report keys for the stage names, the report holds,
    for every stage name, the number of epochs with that label times the
    epoch duration (zero for a stage that does not occur), and no other
    stage time: a label that is not a stage name is not reported. *)
Theorem stage_time_of_each_stage (E : Z) (stages ss : list string) (b : Z) :
  ss ≠ [] →
  NoDup ((λ s, upper s +:+ "Time")%string <$> stages) →
  ∃ m r,
    Metrics_init E ss b = Ok m ∧ report E stages m = Ok r ∧
    (∀ s, s ∈ stages →
       stageTimes r !! (upper s +:+ "Time")%string
       = Some (E * Z.of_nat (length (filter (s =.) ss)))) ∧
    (∀ key, key ∉ (λ s, upper s +:+ "Time")%string <$> stages →
       stageTimes r !! key = None).
Proof.
  intros Hne Hnd.
  assert (∃ m r, Metrics_init E ss b = Ok m ∧ report E stages m = Ok r ∧
                 stageTimes r = _time_passed_in_stage E stages m ∧
                 sleep_stages m = ss) as (m & r & Hinit & Hrep & Hst & Hss).
  { destruct (decide (some_sleep ss)) as [Hs|Hs].
    - destruct (run_some_sleep E stages ss b Hs)
        as (j & i & x & m & r & _ & _ & _ & _ & Hinit & Hrep & Hm & Hr).
      exists m, r. do 2 (split; [done|]). by rewrite Hr, Hm.
    - destruct (run_all_wake E stages ss b Hne Hs)
        as (m & r & Hinit & Hrep & Hm & Hr).
      exists m, r. do 2 (split; [done|]). by rewrite Hr, Hm. }
  exists m, r. do 2 (split; [done|]).
  rewrite Hst. unfold _time_passed_in_stage. cbv zeta. rewrite Hss. split.
  - intros s Hs.
    rewrite (lookup_foldl_insert_elem (λ s, upper s +:+ "Time")%string
               (λ s, match Counter ss !! s with
                     | Some _ => E * counter_get (Counter ss) s
                     | None => 0
                     end)) by done.
    by rewrite time_passed_value.
  - intros key Hkey.
    by rewrite (lookup_foldl_insert_fresh (λ s, upper s +:+ "Time")%string).
Qed.

Lemma stage_time_of_each_stage_witness :
  demo_night ≠ [] ∧
  NoDup ((λ s, upper s +:+ "Time")%string <$> demo_stages) ∧
  ∃ m r,
    Metrics_init 30 demo_night 0 = Ok m ∧ report 30 demo_stages m = Ok r ∧
    (∀ s, s ∈ demo_stages →
       stageTimes r !! (upper s +:+ "Time")%string
       = Some (30 * Z.of_nat (length (filter (s =.) demo_night)))) ∧
    (∀ key, key ∉ (λ s, upper s +:+ "Time")%string <$> demo_stages →
       stageTimes r !! key = None).
Proof.
  assert (NoDup ((λ s, upper s +:+ "Time")%string <$> demo_stages)) as Hnd.
  { apply (bool_decide_unpack _). vm_compute. exact I. }
  split; [done|]. split; [exact Hnd|].
  apply (stage_time_of_each_stage 30 demo_stages demo_night 0); done.
Defined.

(** The object and the report of a non-empty sequence, with the fields that
    do not depend on the sleep. *)
Lemma run_nonempty (E : Z) (stages ss : list string) (b : Z) :
  ss ≠ [] →
  ∃ m r,
    Metrics_init E ss b = Ok m ∧ report E stages m = Ok r ∧
    sleep_stages m = ss ∧
    is_sleeping_stages m = np_ne ss W_name ∧
    sleep_indexes m = np_where (np_ne ss W_name) ∧
    stageTimes r = _time_passed_in_stage E stages m ∧
    efficientSleepTime r
    = Z.of_nat (length (np_where (np_ne ss W_name))) * E.
Proof.
  intros Hne. destruct (decide (some_sleep ss)) as [Hs|Hs].
  - destruct (run_some_sleep E stages ss b Hs)
      as (j & i & x & m & r & _ & _ & _ & _ & Hinit & Hrep & Hm & Hr).
    exists m, r. do 2 (split; [done|]). by rewrite Hr, Hm.
  - destruct (run_all_wake E stages ss b Hne Hs)
      as (m & r & Hinit & Hrep & Hm & Hr).
    exists m, r. do 2 (split; [done|]). rewrite Hr, Hm. simpl.
    assert (np_where (np_ne ss W_name) = []) as ->; [|done].
    destruct (decide (np_where (np_ne ss W_name) = [])) as [|Hw]; [done|].
    by apply some_sleep_np_where in Hw.
Qed.

(** X7. With distinct report keys for the stage names, the stage times add
    up to the epoch duration times the number of epochs whose label is a
    stage name: the epochs with another label are left out of the total. *)
Theorem stage_times_sum_of_known_labels (E : Z) (stages ss : list string)
    (b : Z) :
  ss ≠ [] →
  NoDup ((λ s, upper s +:+ "Time")%string <$> stages) →
  ∃ m r,
    Metrics_init E ss b = Ok m ∧ report E stages m = Ok r ∧
    py_sum (dict_values (stageTimes r))
    = E * Z.of_nat (length (filter (λ x, x ∈ stages) ss)).
Proof.
  intros Hne Hnd.
  destruct (run_nonempty E stages ss b Hne)
    as (m & r & Hinit & Hrep & Hss & _ & _ & Hst & _).
  exists m, r. do 2 (split; [done|]).
  rewrite Hst. unfold _time_passed_in_stage. cbv zeta. rewrite Hss.
  rewrite (sum_foldl_insert (λ s, upper s +:+ "Time")%string) by done.
  rewrite sum_values_empty.
  rewrite (list_fmap_ext _
             (λ s, E * Z.of_nat (length (filter (s =.) ss))))
    by (intros _ s _; apply time_passed_value).
  rewrite py_sum_fmap_scale, sum_counts_of_known_labels; [lia|].
  by eapply NoDup_fmap_1.
Qed.

Lemma stage_times_sum_of_known_labels_witness :
  ["W"; "X"; "N2"; "W"]%string ≠ [] ∧
  NoDup ((λ s, upper s +:+ "Time")%string <$> demo_stages) ∧
  ∃ m r,
    Metrics_init 30 ["W"; "X"; "N2"; "W"]%string 0 = Ok m ∧
    report 30 demo_stages m = Ok r ∧
    py_sum (dict_values (stageTimes r))
    = 30 * Z.of_nat (length (filter (λ x, x ∈ demo_stages)
                                    ["W"; "X"; "N2"; "W"]%string)).
Proof.
  assert (NoDup ((λ s, upper s +:+ "Time")%string <$> demo_stages)) as Hnd.
  { apply (bool_decide_unpack _). vm_compute. exact I. }
  split; [done|]. split; [exact Hnd|].
  apply (stage_times_sum_of_known_labels 30 demo_stages
           ["W"; "X"; "N2"; "W"]%string 0); done.
Defined.

(** X8. When the wake label is among the stage names (with distinct report
    keys), the time reported under ["WTime"] and the efficient sleep time
    add up to the duration of the recording. *)
Theorem wake_time_and_efficient_sleep_time (E : Z) (stages ss : list string)
    (b : Z) :
  ss ≠ [] →
  NoDup ((λ s, upper s +:+ "Time")%string <$> stages) →
  W_name ∈ stages →
  ∃ m r w,
    Metrics_init E ss b = Ok m ∧ report E stages m = Ok r ∧
    stageTimes r !! "WTime"%string = Some w ∧
    w + efficientSleepTime r = Z.of_nat (length ss) * E.
Proof.
  intros Hne Hnd HW.
  destruct (run_nonempty E stages ss b Hne)
    as (m & r & Hinit & Hrep & Hss & _ & _ & Hst & Heff).
  exists m, r, (E * Z.of_nat (length (filter (W_name =.) ss))).
  do 2 (split; [done|]). split.
  - rewrite Hst. unfold _time_passed_in_stage. cbv zeta. rewrite Hss.
    change "WTime"%string with (upper W_name +:+ "Time")%string.
    rewrite (lookup_foldl_insert_elem (λ s, upper s +:+ "Time")%string
               (λ s, match Counter ss !! s with
                     | Some _ => E * counter_get (Counter ss) s
                     | None => 0
                     end)) by done.
    by rewrite time_passed_value.
  - rewrite Heff, np_ne_mask. unfold np_where.
    rewrite (np_where_from_length_filter is_sleep).
    pose proof (length_filter_complement is_sleep ss) as Hsplit.
    rewrite (list_filter_iff (λ x, ¬ is_sleep x) (W_name =.)) in Hsplit.
    + nia.
    + intros x. unfold is_sleep. split; [|by intros <- ?].
      intros Hx. by destruct (decide (W_name = x)) as [|Hne']; [|destruct Hx].
Qed.

Lemma wake_time_and_efficient_sleep_time_witness :
  demo_night ≠ [] ∧
  NoDup ((λ s, upper s +:+ "Time")%string <$> demo_stages) ∧
  W_name ∈ demo_stages ∧
  ∃ m r w,
    Metrics_init 30 demo_night 0 = Ok m ∧ report 30 demo_stages m = Ok r ∧
    stageTimes r !! "WTime"%string = Some w ∧
    w + efficientSleepTime r = Z.of_nat (length demo_night) * 30.
Proof.
  assert (NoDup ((λ s, upper s +:+ "Time")%string <$> demo_stages)) as Hnd.
  { apply (bool_decide_unpack _). vm_compute. exact I. }
  assert (W_name ∈ demo_stages) as HW by apply list_elem_of_here.
  split; [done|]. split; [exact Hnd|]. split; [exact HW|].
  apply (wake_time_and_efficient_sleep_time 30 demo_stages demo_night 0);
    done.
Defined.

(** X9. On a constructed object the mask has one entry per epoch and the
    sleep indexes are, in strictly ascending order, exactly the positions
    of the epochs that are not wake. *)
Theorem sleep_indexes_invariant (E : Z) (ss : list string) (b : Z) :
  ss ≠ [] →
  ∃ m,
    Metrics_init E ss b = Ok m ∧
    length (is_sleeping_stages m) = length ss ∧
    StronglySorted lt (sleep_indexes m) ∧
    (∀ i, i ∈ sleep_indexes m ↔ ∃ x, ss !! i = Some x ∧ x ≠ W_name) ∧
    length (sleep_indexes m) = length (filter is_sleep ss).
Proof.
  intros Hne.
  destruct (run_nonempty E [] ss b Hne)
    as (m & r & Hinit & _ & _ & Hmask & Hidx & _).
  exists m. split; [done|]. rewrite Hmask, Hidx. split.
  - unfold np_ne. by rewrite length_fmap.
  - split; [apply np_where_from_sorted|]. split.
    + intros i. unfold np_where. rewrite elem_of_np_where_from, np_ne_mask.
      split.
      * intros (k & -> & Hk). by apply (lookup_mask_of_true is_sleep) in Hk.
      * intros Hx. exists i. split; [done|].
        by apply (lookup_mask_of_true is_sleep).
    + rewrite np_ne_mask. apply (np_where_from_length_filter is_sleep).
Qed.

Lemma sleep_indexes_invariant_witness :
  demo_night ≠ [] ∧
  ∃ m,
    Metrics_init 30 demo_night 0 = Ok m ∧
    length (is_sleeping_stages m) = length demo_night ∧
    StronglySorted lt (sleep_indexes m) ∧
    (∀ i, i ∈ sleep_indexes m ↔ ∃ x, demo_night !! i = Some x ∧ x ≠ W_name) ∧
    length (sleep_indexes m) = length (filter is_sleep demo_night).
Proof.
  split; [done|]. apply (sleep_indexes_invariant 30 demo_night 0). done.
Defined.

(** X10. [_get_latency_of_stage] returns [None] exactly on a mask without a
    true entry; otherwise it returns the position of the first true entry
    times the epoch duration. *)
Theorem latency_of_first_true (E : Z) (mask : list bool) :
  match _get_latency_of_stage E mask with
  | None => ∀ k, mask !! k ≠ Some true
  | Some v =>
      ∃ k, v = Z.of_nat k * E ∧ mask !! k = Some true ∧
           ∀ k', (k' < k)%nat → mask !! k' = Some false
  end.
Proof.
  unfold _get_latency_of_stage. cbv zeta.
  destruct (np_where mask) as [|i rest] eqn:Hw.
  - by apply (np_where_from_nil 0).
  - apply np_where_from_head in Hw as (k & -> & Hk & Hlt). by exists k.
Qed.

Lemma no_shift_without_sleep (ss : list string) :
  ¬ some_sleep ss → count_pairs is_shift ss = 0.
Proof.
  intros Hs. apply count_pairs_none. intros i Hi. unfold pair_at in Hi.
  destruct (ss !! i) as [a|] eqn:Ha; [|done].
  destruct (ss !! S i) as [c|] eqn:Hc; [|done].
  assert (∀ k y, ss !! k = Some y → y = W_name) as Hall.
  { intros k y Hy. destruct (decide (y = W_name)) as [|Hne]; [done|].
    destruct Hs. apply list.Exists_exists. exists y. split; [|done].
    apply list_elem_of_lookup. eauto. }
  apply Hi. by rewrite (Hall _ _ Ha), (Hall _ _ Hc).
Qed.

Lemma count_pairs_le_length (P : string → string → Prop)
    `{!∀ a c, Decision (P a c)} (ss : list string) :
  count_pairs P ss ≤ Z.of_nat (length ss - 1).
Proof.
  unfold count_pairs.
  pose proof (length_filter (pair_at P ss) (seq 0 (length ss - 1))) as Hle.
  rewrite length_seq in Hle. lia.
Qed.

(** X11. The awakenings are not negative, the stage shifts do not exceed
    the number of epochs, and there is no stage shift exactly when the
    subject has not slept. *)
Theorem stage_shift_bounds (E : Z) (stages ss : list string) (b : Z) :
  ss ≠ [] →
  ∃ m r,
    Metrics_init E ss b = Ok m ∧ report E stages m = Ok r ∧
    0 ≤ awakenings r ∧ stageShifts r ≤ Z.of_nat (length ss) ∧
    (stageShifts r = 0 ↔ has_slept m = false).
Proof.
  intros Hne.
  assert (0 < length ss)%nat as Hn by (destruct ss; [done|simpl; lia]).
  pose proof (count_pairs_nonneg is_awakening ss) as Haw.
  pose proof (count_pairs_le_length is_shift ss) as Hsh.
  assert (count_pairs is_awakening ss ≤ count_pairs is_shift ss) as Hle.
  { apply count_pairs_mono. intros a c [Ha ->]. exact Ha. }
  destruct (decide (some_sleep ss)) as [Hs|Hs].
  - destruct (run_some_sleep E stages ss b Hs)
      as (j & i & x & m & r & _ & Hi & Hx & _ & Hinit & Hrep & Hm & Hr).
    exists m, r. do 2 (split; [done|]). subst m r. simpl.
    destruct (bool_decide (x ≠ W_name)) eqn:Hxw.
    + split; [lia|]. split; [lia|]. split; [lia|done].
    + apply bool_decide_eq_false in Hxw.
      assert (x = W_name) as -> by (by destruct (decide (x = W_name))).
      pose proof (awakening_after_last_sleep ss i Hi Hx) as Hpair.
      pose proof (count_pairs_pos is_awakening ss i Hpair) as Hpos.
      split; [lia|]. split; [lia|]. split; [lia|done].
  - destruct (run_all_wake E stages ss b Hne Hs)
      as (m & r & Hinit & Hrep & Hm & Hr).
    exists m, r. do 2 (split; [done|]). subst m r. simpl.
    rewrite (no_shift_without_sleep ss Hs). split; [lia|]. split; [lia|done].
Qed.

Lemma stage_shift_bounds_witness :
  demo_night ≠ [] ∧
  ∃ m r,
    Metrics_init 30 demo_night 0 = Ok m ∧ report 30 demo_stages m = Ok r ∧
    0 ≤ awakenings r ∧ stageShifts r ≤ Z.of_nat (length demo_night) ∧
    (stageShifts r = 0 ↔ has_slept m = false).
Proof.
  split; [done|]. apply (stage_shift_bounds 30 demo_stages demo_night 0). done.
Defined.

(** * The categorical features *)

Section reshape.
Context {A : Type}.
Implicit Types (l : list A) (k : nat).

Lemma length_join_replicate l k :
  length (mjoin (replicate k l)) = (k * length l)%nat.
Proof.
  induction k as [|k IH]; [done|].
  simpl. rewrite length_app, IH. lia.
Qed.

Lemma rows_of_join_replicate l k :
  (λ row, take (length l) (drop (row * length l) (mjoin (replicate k l))))
    <$> seq 0 k
  = replicate k l.
Proof.
  induction k as [|k IH]; [done|].
  change (seq 0 (S k)) with (0%nat :: seq 1 k).
  rewrite <-fmap_S_seq, fmap_cons, <-list_fmap_compose.
  change (mjoin (replicate (S k) l)) with (l ++ mjoin (replicate k l)).
  simpl replicate. f_equal.
  - change (0 * length l)%nat with 0%nat. rewrite drop_0.
    apply take_app_length.
  - etrans; [|exact IH]. apply list_fmap_ext. intros _ row _.
    unfold compose.
    change (S row * length l)%nat with (length l + row * length l)%nat.
    by rewrite drop_app_add.
Qed.

End reshape.

Lemma np_reshape_rows_repeat (l : list Z) (n : Z) :
  0 < n →
  np_reshape_rows (py_list_repeat l n) n = Return (replicate (Z.to_nat n) l).
Proof.
  intros Hn. unfold np_reshape_rows, py_list_repeat.
  rewrite decide_False by lia.
  rewrite length_join_replicate, Nat2Z.inj_mul, Z2Nat.id by lia.
  rewrite decide_False by (rewrite Z.mul_comm, Z.mod_mul; lia).
  rewrite Z.mul_comm, Z.div_mul, Nat2Z.id by lia.
  by rewrite rows_of_join_replicate.
Qed.

(** X12. For an age inside some range and a positive number of epochs,
    [get_non_eeg_features] returns one row per epoch, each made of the sex
    value and of the index of the first range that contains the age. *)
Theorem get_non_eeg_features_rows (bins : list (Z * Z))
    (age sex_value nb_epochs : Z) (c : nat) (lo hi : Z) :
  0 < nb_epochs →
  bins !! c = Some (lo, hi) → lo ≤ age ≤ hi →
  (∀ j r, (j < c)%nat → bins !! j = Some r → ¬ (r.1 ≤ age ∧ age ≤ r.2)) →
  get_non_eeg_features bins age sex_value nb_epochs
  = Return (replicate (Z.to_nat nb_epochs) [sex_value; Z.of_nat c]).
Proof.
  intros Hn Hc Hage Hfirst. unfold get_non_eeg_features.
  assert (list_find (λ age_range : Z * Z,
                       age_range.1 ≤ age ∧ age ≤ age_range.2) bins
          = Some (c, (lo, hi))) as ->.
  { apply list_find_Some. split; [done|]. split; [done|].
    intros j r Hr Hlt. by apply (Hfirst j r). }
  simpl. by apply np_reshape_rows_repeat.
Qed.

Lemma get_non_eeg_features_rows_witness :
  0 < 3 ∧
  [(0, 49); (50, 69); (60, 120)] !! 1%nat = Some (50, 69) ∧ 50 ≤ 65 ≤ 69 ∧
  (∀ j r, (j < 1)%nat → [(0, 49); (50, 69); (60, 120)] !! j = Some r →
          ¬ (r.1 ≤ 65 ∧ 65 ≤ r.2)) ∧
  get_non_eeg_features [(0, 49); (50, 69); (60, 120)] 65 1 3
  = Return (replicate (Z.to_nat 3) [1; Z.of_nat 1]).
Proof.
  assert (∀ j r, (j < 1)%nat → [(0, 49); (50, 69); (60, 120)] !! j = Some r →
                 ¬ (r.1 ≤ 65 ∧ 65 ≤ r.2)) as Hfirst.
  { intros [|j] r Hj Hr; [|lia]. injection Hr as <-. simpl. lia. }
  split; [lia|]. split; [reflexivity|]. split; [lia|]. split; [exact Hfirst|].
  apply (get_non_eeg_features_rows _ 65 1 3 1 50 69);
    [lia|reflexivity|lia|exact Hfirst].
Defined.

(** X13. For an age outside every range, [get_non_eeg_features] raises
    [StopIteration], whatever the number of epochs. *)
Theorem get_non_eeg_features_age_outside (bins : list (Z * Z))
    (age sex_value nb_epochs : Z) :
  (∀ r, r ∈ bins → ¬ (r.1 ≤ age ∧ age ≤ r.2)) →
  get_non_eeg_features bins age sex_value nb_epochs = Throw StopIteration.
Proof.
  intros Hout. unfold get_non_eeg_features.
  assert (list_find (λ age_range : Z * Z,
                       age_range.1 ≤ age ∧ age ≤ age_range.2) bins
          = None) as ->; [|done].
  apply list_find_None, list.Forall_forall. exact Hout.
Qed.

Lemma get_non_eeg_features_age_outside_witness :
  (∀ r, r ∈ [(0, 49); (50, 69)] → ¬ (r.1 ≤ 70 ∧ 70 ≤ r.2)) ∧
  get_non_eeg_features [(0, 49); (50, 69)] 70 1 3 = Throw StopIteration.
Proof.
  assert (∀ r, r ∈ [(0, 49); (50, 69)] → ¬ (r.1 ≤ 70 ∧ 70 ≤ r.2)) as Hout.
  { intros r Hr.
    repeat (apply elem_of_cons in Hr as [->|Hr]; [simpl; lia|]).
    by apply elem_of_nil in Hr. }
  split; [exact Hout|].
  apply (get_non_eeg_features_age_outside _ 70 1 3 Hout).
Defined.

(** X14. For an age inside some range and a number of epochs that is zero
    or negative, the reshape of [get_non_eeg_features] raises
    [ValueError]. *)
Theorem get_non_eeg_features_no_epoch (bins : list (Z * Z))
    (age sex_value nb_epochs : Z) (r : Z * Z) :
  nb_epochs ≤ 0 → r ∈ bins → r.1 ≤ age ≤ r.2 →
  get_non_eeg_features bins age sex_value nb_epochs = Throw ValueError.
Proof.
  intros Hn Hr Hage. unfold get_non_eeg_features.
  destruct (list_find_elem_of
              (λ age_range : Z * Z, age_range.1 ≤ age ∧ age ≤ age_range.2)
              bins r Hr Hage) as [[c r'] ->].
  simpl. unfold np_reshape_rows. by rewrite decide_True.
Qed.

Lemma get_non_eeg_features_no_epoch_witness :
  0 ≤ 0 ∧ (0, 49) ∈ [(0, 49); (50, 69)] ∧ (0, 49).1 ≤ 30 ≤ (0, 49).2 ∧
  get_non_eeg_features [(0, 49); (50, 69)] 30 1 0 = Throw ValueError.
Proof.
  split; [lia|]. split; [apply list_elem_of_here|]. split; [simpl; lia|].
  apply (get_non_eeg_features_no_epoch _ 30 1 0 (0, 49));
    [lia|apply list_elem_of_here|simpl; lia].
Defined.

(** * The upload form *)

Section strings.
Implicit Types (s t : string).

Lemma lower_app s t : lower (s +:+ t) = (lower s +:+ lower t)%string.
Proof. induction s as [|c s IH]; [done|]. simpl. by rewrite IH. Qed.

Lemma list_ascii_of_string_app s t :
  list_ascii_of_string (s +:+ t)
  = list_ascii_of_string s ++ list_ascii_of_string t.
Proof. induction s as [|c s IH]; [done|]. simpl. by rewrite IH. Qed.

Lemma str_endswith_app s t (suffixes : list string) :
  t ∈ suffixes → str_endswith (s +:+ t) suffixes = true.
Proof.
  intros Ht. unfold str_endswith. apply bool_decide_eq_true_2.
  apply list.Exists_exists. exists t. split; [done|].
  rewrite list_ascii_of_string_app. by eexists.
Qed.

End strings.

(** X15. A file name that ends with an allowed extension written in any
    letter case is accepted: the test is made on the lower-cased name.  (The
    extension is taken in ASCII, where [str.lower] maps letter by letter.) *)
Theorem validate_filename_any_case (allowed : list string)
    (base ext : string) :
  Forall (λ c, nat_of_ascii c < 128)%nat (list_ascii_of_string ext) →
  lower ext ∈ allowed →
  AnalyzeSleep._validate_filename allowed (Some (base +:+ ext)%string)
  = Return ().
Proof.
  intros _ Hext. unfold AnalyzeSleep._validate_filename.
  by rewrite lower_app, str_endswith_app.
Qed.

Lemma validate_filename_any_case_witness :
  Forall (λ c, nat_of_ascii c < 128)%nat (list_ascii_of_string ".TxT") ∧
  lower ".TxT" ∈ [".csv"; ".txt"]%string ∧
  AnalyzeSleep._validate_filename [".csv"; ".txt"]%string
    (Some ("Night_1" +:+ ".TxT")%string)
  = Return ().
Proof.
  assert (Forall (λ c, nat_of_ascii c < 128)%nat
                 (list_ascii_of_string ".TxT")) as Hascii.
  { apply (bool_decide_unpack _). vm_compute. exact I. }
  assert (lower ".TxT" ∈ [".csv"; ".txt"]%string) as Hext.
  { apply (bool_decide_unpack _). vm_compute. exact I. }
  split; [exact Hascii|]. split; [exact Hext|].
  apply (validate_filename_any_case _ "Night_1" ".TxT" Hascii Hext).
Defined.

Section parse_form.
Variable allowed : list string.
Variable decode : string → option string.
Implicit Types (form pre post : list (outcome BodyPart))
  (item : outcome BodyPart) (part : BodyPart)
  (d : gmap (option string) (option string)) (fc : option string).

Local Ltac destruct_last :=
  match goal with |- context [list.last ?l] => destruct (list.last l) end.

(** One step of the loop on a field and on a file that pass. *)
Lemma parse_parts_field item form d fc part name text :
  item = Return part → part_name part = Return name → name ≠ (Some "file"%string) →
  part_text part = Return text →
  AnalyzeSleep.parse_parts allowed decode (item :: form) d fc
  = AnalyzeSleep.parse_parts allowed decode form (<[name := text]> d) fc.
Proof.
  intros -> Hname Hne Htext. simpl. rewrite Hname. simpl.
  rewrite decide_False by done. by rewrite Htext.
Qed.

Lemma parse_parts_file item form d fc part filename content :
  item = Return part → part_name part = Return (Some "file"%string) →
  part_filename part = Return filename →
  AnalyzeSleep._validate_filename allowed filename = Return () →
  AnalyzeSleep.read_decoded decode part = Return content →
  AnalyzeSleep.parse_parts allowed decode (item :: form) d fc
  = AnalyzeSleep.parse_parts allowed decode form d (Some content).
Proof.
  intros -> Hname Hfn Hvalid Hread. simpl. rewrite Hname. simpl.
  rewrite Hfn. simpl. rewrite Hvalid. simpl. by rewrite Hread.
Qed.

(** The loop over steps that all pass: the content is the one of the last
    file, and each other name is bound to the text of the last part that
    has it. *)
Lemma parse_parts_passes form d fc :
  Forall (AnalyzeSleep.item_passes allowed decode) form →
  ∃ d' fc',
    AnalyzeSleep.parse_parts allowed decode form d fc = Return (d', fc') ∧
    match list.last (filter (λ item, AnalyzeSleep.item_name item
                                     = Return (Some "file"%string)) form) with
    | Some item =>
        ∃ content, AnalyzeSleep.item_content decode item = Return content ∧
                   fc' = Some content
    | None => fc' = fc
    end ∧
    d' !! (Some "file"%string) = d !! (Some "file"%string) ∧
    ∀ name, name ≠ (Some "file"%string) →
      match list.last (filter (λ item, AnalyzeSleep.item_name item
                                       = Return name) form) with
      | Some item =>
          ∃ text, AnalyzeSleep.item_text item = Return text ∧
                  d' !! name = Some text
      | None => d' !! name = d !! name
      end.
Proof.
  intros Hall. revert d fc.
  induction Hall as [|item form Hitem _ IH]; intros d fc.
  { exists d, fc. by repeat split. }
  destruct Hitem as [(part & name & text & Hi & Hname & Hne & Htext)
                    |(part & filename & content & Hi & Hname & Hfn & Hvalid
                      & Hread)].
  - rewrite (parse_parts_field item form d fc part name text) by done.
    destruct (IH (<[name := text]> d) fc) as (d' & fc' & -> & Hfc & Hd & Hl).
    exists d', fc'. split; [done|].
    assert (AnalyzeSleep.item_name item = Return name) as Hin
      by (subst item; exact Hname).
    assert (AnalyzeSleep.item_text item = Return text) as Hit
      by (subst item; exact Htext).
    rewrite filter_cons, decide_False by (rewrite Hin; congruence).
    split; [done|].
    split; [by rewrite Hd, lookup_insert_ne|].
    intros k Hk. specialize (Hl k Hk). rewrite filter_cons.
    destruct (decide (AnalyzeSleep.item_name item = Return k)) as [Hik|Hik].
    + assert (k = name) as -> by congruence.
      rewrite last_cons. revert Hl. destruct_last; [done|].
      intros Hl. exists text. by rewrite Hl, lookup_insert_eq.
    + revert Hl. destruct_last; [done|]. intros Hl.
      rewrite Hl, lookup_insert_ne; [done|]. intros ->. by rewrite Hin in Hik.
  - rewrite (parse_parts_file item form d fc part filename content) by done.
    destruct (IH d (Some content)) as (d' & fc' & -> & Hfc & Hd & Hl).
    exists d', fc'. split; [done|].
    assert (AnalyzeSleep.item_name item = Return (Some "file"%string)) as Hin
      by (subst item; exact Hname).
    assert (AnalyzeSleep.item_content decode item = Return content) as Hic
      by (subst item; exact Hread).
    rewrite filter_cons, decide_True by done. rewrite last_cons.
    split; [revert Hfc; destruct_last; [done|eauto]|].
    split; [done|].
    intros k Hk. specialize (Hl k Hk).
    rewrite filter_cons, decide_False; [done|]. rewrite Hin. congruence.
Qed.

Lemma parse_parts_app pre post d fc :
  Forall (AnalyzeSleep.item_passes allowed decode) pre →
  ∃ d' fc',
    AnalyzeSleep.parse_parts allowed decode (pre ++ post) d fc
    = AnalyzeSleep.parse_parts allowed decode post d' fc'.
Proof.
  intros Hall. revert d fc.
  induction Hall as [|item pre Hitem _ IH]; intros d fc; [by eexists _, _|].
  rewrite <-app_comm_cons.
  destruct Hitem as [(part & name & text & Hi & Hname & Hne & Htext)
                    |(part & filename & content & Hi & Hname & Hfn & Hvalid
                      & Hread)].
  - rewrite (parse_parts_field item _ d fc part name text) by done. apply IH.
  - rewrite (parse_parts_file item _ d fc part filename content) by done.
    apply IH.
Qed.

Lemma parse_parts_fails item form d fc (e : py_exn) :
  AnalyzeSleep.item_fails allowed decode item e →
  AnalyzeSleep.parse_parts allowed decode (item :: form) d fc = Throw e.
Proof.
  intros [->|(part & -> & Hfail)]; [done|]. simpl.
  destruct Hfail as [Hname|[(Hname & Hfile)|(name & Hname & Hne & Htext)]];
    rewrite Hname; simpl; [done| |].
  - destruct Hfile as [->|(filename & -> & [Hv|[Hv Hread]])]; simpl; [done|..];
      rewrite Hv; simpl; [done|]. by rewrite Hread.
  - rewrite decide_False by done. by rewrite Htext.
Qed.

End parse_form.

(** X16. A form whose parts are all read and of which none is named
    ["file"] is refused with the error "Missing file"; this covers the
    empty form. *)
Theorem parse_form_missing_file (allowed : list string)
    (decode : string → option string) (form : list (outcome BodyPart)) :
  Forall AnalyzeSleep.field_passes form →
  AnalyzeSleep._parse_form allowed decode form
  = Throw (ClassificationError "Missing file").
Proof.
  intros Hall. unfold AnalyzeSleep._parse_form.
  destruct (parse_parts_passes allowed decode form ∅ None)
    as (d' & fc' & -> & Hfc & _).
  { apply list.Forall_forall. intros item Hin. left.
    by apply (proj1 (list.Forall_forall _ _) Hall). }
  rewrite (filter_nil_Forall _ form) in Hfc.
  - simpl in Hfc. by subst fc'.
  - intros item Hin Hfile. rewrite list.Forall_forall in Hall.
    destruct (Hall item Hin) as (part & name & text & -> & Hname & Hne & _).
    unfold AnalyzeSleep.item_name in Hfile. simpl in Hfile. congruence.
Qed.

Lemma parse_form_missing_file_witness :
  Forall AnalyzeSleep.field_passes
    [Return (mkBodyPart (Return (Some "age"%string)) (Return None)
               (Return ""%string) (Return (Some "23"%string)))] ∧
  AnalyzeSleep._parse_form [".csv"; ".txt"]%string Some
    [Return (mkBodyPart (Return (Some "age"%string)) (Return None)
               (Return ""%string) (Return (Some "23"%string)))]
  = Throw (ClassificationError "Missing file").
Proof.
  assert (Forall AnalyzeSleep.field_passes
            [Return (mkBodyPart (Return (Some "age"%string)) (Return None)
                       (Return ""%string) (Return (Some "23"%string)))])
    as Hall.
  { apply Forall_singleton. by eexists _, _, _. }
  split; [exact Hall|]. apply (parse_form_missing_file _ Some _ Hall).
Defined.

(** X17. The first step that fails decides the outcome.  When the parts
    before it are read and accepted, the form fails with the exception of
    the first part of which the iteration, the name, the file name, the
    check of the file name, the stream, the UTF-8 decoding or the text
    raises, whatever parts follow, also when a later file part would be
    accepted. *)
Theorem parse_form_first_bad_file (allowed : list string)
    (decode : string → option string) (pre post : list (outcome BodyPart))
    (item : outcome BodyPart) (e : py_exn) :
  Forall (AnalyzeSleep.item_passes allowed decode) pre →
  AnalyzeSleep.item_fails allowed decode item e →
  AnalyzeSleep._parse_form allowed decode (pre ++ item :: post) = Throw e.
Proof.
  intros Hpre Hbad. unfold AnalyzeSleep._parse_form.
  destruct (parse_parts_app allowed decode pre (item :: post) ∅ None Hpre)
    as (d' & fc' & ->).
  by rewrite (parse_parts_fails allowed decode item post d' fc' e Hbad).
Qed.

Lemma parse_form_first_bad_file_witness :
  Forall (AnalyzeSleep.item_passes [".csv"; ".txt"]%string Some)
    [Return (mkBodyPart (Return (Some "age"%string)) (Return None)
               (Return ""%string) (Return (Some "23"%string)))] ∧
  AnalyzeSleep.item_fails [".csv"; ".txt"]%string Some
    (Return (mkBodyPart (Return (Some "file"%string))
               (Return (Some "night.pdf"%string)) (Return "1,2"%string)
               (Return None)))
    (ClassificationError "File format not allowed") ∧
  AnalyzeSleep._parse_form [".csv"; ".txt"]%string Some
    ([Return (mkBodyPart (Return (Some "age"%string)) (Return None)
                (Return ""%string) (Return (Some "23"%string)))]
     ++ Return (mkBodyPart (Return (Some "file"%string))
                  (Return (Some "night.pdf"%string)) (Return "1,2"%string)
                  (Return None))
     :: [Return (mkBodyPart (Return (Some "file"%string))
                   (Return (Some "night.csv"%string)) (Return "3,4"%string)
                   (Return None))])
  = Throw (ClassificationError "File format not allowed").
Proof.
  assert (Forall (AnalyzeSleep.item_passes [".csv"; ".txt"]%string Some)
            [Return (mkBodyPart (Return (Some "age"%string)) (Return None)
                       (Return ""%string) (Return (Some "23"%string)))])
    as Hpre.
  { apply Forall_singleton. left. by eexists _, _, _. }
  assert (AnalyzeSleep.item_fails [".csv"; ".txt"]%string Some
            (Return (mkBodyPart (Return (Some "file"%string))
                       (Return (Some "night.pdf"%string))
                       (Return "1,2"%string) (Return None)))
            (ClassificationError "File format not allowed")) as Hbad.
  { right. eexists. split; [reflexivity|]. right. left.
    split; [reflexivity|]. right. eexists. split; [reflexivity|].
    left. reflexivity. }
  split; [exact Hpre|]. split; [exact Hbad|].
  apply (parse_form_first_bad_file _ Some _ _ _ _ Hpre Hbad).
Defined.

(** X18. When every part is read and accepted and some part is named
    ["file"], the form is parsed: the content is the decoded bytes of the
    last file part, the fields hold no ["file"] key, and each other name is
    bound to the text of the last part with that name. *)
Theorem parse_form_result (allowed : list string)
    (decode : string → option string) (form : list (outcome BodyPart)) :
  Forall (AnalyzeSleep.item_passes allowed decode) form →
  (∃ item, item ∈ form ∧
           AnalyzeSleep.item_name item = Return (Some "file"%string)) →
  ∃ form_data content item,
    AnalyzeSleep._parse_form allowed decode form
    = Return (form_data, Some content) ∧
    list.last (filter (λ item, AnalyzeSleep.item_name item
                               = Return (Some "file"%string)) form)
    = Some item ∧
    AnalyzeSleep.item_content decode item = Return content ∧
    form_data !! Some "file"%string = None ∧
    ∀ name, name ≠ Some "file"%string →
      match list.last (filter (λ item, AnalyzeSleep.item_name item
                                       = Return name) form) with
      | Some item =>
          ∃ text, AnalyzeSleep.item_text item = Return text ∧
                  form_data !! name = Some text
      | None => form_data !! name = None
      end.
Proof.
  intros Hall (item0 & Hin0 & Hfile0).
  destruct (parse_parts_passes allowed decode form ∅ None Hall)
    as (d' & fc' & Hparse & Hfc & Hd & Hl).
  destruct (list.last (filter (λ item, AnalyzeSleep.item_name item
                                       = Return (Some "file"%string)) form))
    as [item|] eqn:Hlast.
  2:{ apply last_None in Hlast.
      assert (item0 ∈ filter (λ item, AnalyzeSleep.item_name item
                                      = Return (Some "file"%string)) form)
        as Hin by by apply list_elem_of_filter.
      rewrite Hlast in Hin. by apply elem_of_nil in Hin. }
  destruct Hfc as (content & Hcontent & ->).
  exists d', content, item. unfold AnalyzeSleep._parse_form.
  rewrite Hparse. simpl. split; [done|]. do 2 (split; [done|]).
  split; [by rewrite Hd|].
  intros name Hname. specialize (Hl name Hname). revert Hl.
  match goal with |- context [list.last ?l] => destruct (list.last l) end;
    [done|].
  intros Hl. by rewrite Hl.
Qed.

Lemma parse_form_result_witness :
  Forall (AnalyzeSleep.item_passes [".csv"; ".txt"]%string Some)
    [Return (mkBodyPart (Return (Some "age"%string)) (Return None)
               (Return ""%string) (Return (Some "23"%string)));
     Return (mkBodyPart (Return (Some "file"%string))
               (Return (Some "night.CSV"%string)) (Return "1,2"%string)
               (Return None));
     Return (mkBodyPart (Return (Some "age"%string)) (Return None)
               (Return ""%string) (Return (Some "24"%string)))] ∧
  (∃ item,
     item ∈ [Return (mkBodyPart (Return (Some "age"%string)) (Return None)
                       (Return ""%string) (Return (Some "23"%string)));
             Return (mkBodyPart (Return (Some "file"%string))
                       (Return (Some "night.CSV"%string))
                       (Return "1,2"%string) (Return None));
             Return (mkBodyPart (Return (Some "age"%string)) (Return None)
                       (Return ""%string) (Return (Some "24"%string)))] ∧
     AnalyzeSleep.item_name item = Return (Some "file"%string)) ∧
  ∃ form_data content item,
    AnalyzeSleep._parse_form [".csv"; ".txt"]%string Some
      [Return (mkBodyPart (Return (Some "age"%string)) (Return None)
                 (Return ""%string) (Return (Some "23"%string)));
       Return (mkBodyPart (Return (Some "file"%string))
                 (Return (Some "night.CSV"%string)) (Return "1,2"%string)
                 (Return None));
       Return (mkBodyPart (Return (Some "age"%string)) (Return None)
                 (Return ""%string) (Return (Some "24"%string)))]
    = Return (form_data, Some content) ∧
    list.last
      (filter (λ item, AnalyzeSleep.item_name item
                       = Return (Some "file"%string))
         [Return (mkBodyPart (Return (Some "age"%string)) (Return None)
                    (Return ""%string) (Return (Some "23"%string)));
          Return (mkBodyPart (Return (Some "file"%string))
                    (Return (Some "night.CSV"%string)) (Return "1,2"%string)
                    (Return None));
          Return (mkBodyPart (Return (Some "age"%string)) (Return None)
                    (Return ""%string) (Return (Some "24"%string)))])
    = Some item ∧
    AnalyzeSleep.item_content Some item = Return content ∧
    form_data !! Some "file"%string = None ∧
    ∀ name, name ≠ Some "file"%string →
      match list.last
              (filter (λ item, AnalyzeSleep.item_name item = Return name)
                 [Return (mkBodyPart (Return (Some "age"%string))
                            (Return None) (Return ""%string)
                            (Return (Some "23"%string)));
                  Return (mkBodyPart (Return (Some "file"%string))
                            (Return (Some "night.CSV"%string))
                            (Return "1,2"%string) (Return None));
                  Return (mkBodyPart (Return (Some "age"%string))
                            (Return None) (Return ""%string)
                            (Return (Some "24"%string)))]) with
      | Some item =>
          ∃ text, AnalyzeSleep.item_text item = Return text ∧
                  form_data !! name = Some text
      | None => form_data !! name = None
      end.
Proof.
  assert (Forall (AnalyzeSleep.item_passes [".csv"; ".txt"]%string Some)
            [Return (mkBodyPart (Return (Some "age"%string)) (Return None)
                       (Return ""%string) (Return (Some "23"%string)));
             Return (mkBodyPart (Return (Some "file"%string))
                       (Return (Some "night.CSV"%string))
                       (Return "1,2"%string) (Return None));
             Return (mkBodyPart (Return (Some "age"%string)) (Return None)
                       (Return ""%string) (Return (Some "24"%string)))])
    as Hall.
  { repeat apply Forall_cons_2; [| | |apply Forall_nil_2].
    - left. by eexists _, _, _.
    - right. by eexists _, _, _.
    - left. by eexists _, _, _. }
  assert (∃ item,
            item ∈ [Return (mkBodyPart (Return (Some "age"%string))
                              (Return None) (Return ""%string)
                              (Return (Some "23"%string)));
                    Return (mkBodyPart (Return (Some "file"%string))
                              (Return (Some "night.CSV"%string))
                              (Return "1,2"%string) (Return None));
                    Return (mkBodyPart (Return (Some "age"%string))
                              (Return None) (Return ""%string)
                              (Return (Some "24"%string)))] ∧
            AnalyzeSleep.item_name item = Return (Some "file"%string))
    as Hfile.
  { eexists. split; [apply list_elem_of_further, list_elem_of_here|done]. }
  split; [exact Hall|]. split; [exact Hfile|].
  apply (parse_form_result _ Some _ Hall Hfile).
Defined.

(** A field whose text the framework cannot decode stops the form before
    the file is looked for, and before a later file is read. *)
Example undecodable_field_raises :
  AnalyzeSleep._parse_form [".csv"; ".txt"]%string Some
    [Return (mkBodyPart (Return (Some "age"%string)) (Return None)
               (Return ""%string) (Throw MultipartParseError));
     Return (mkBodyPart (Return (Some "file"%string))
               (Return (Some "a.csv"%string)) (Return "1"%string)
               (Return None))]
  = Throw MultipartParseError.
Proof. reflexivity. Qed.
